(** * Tap-Bill-App backend: authentication gate and user reconciliation

    A shallow embedding of [backend/auth_service.py] and
    [backend/server.py].  The MongoDB [users] collection is an explicit
    state threaded through every handler; the Firebase identity
    authority, the rendering of an exception as a string and the
    store's [$regex] operator (which patterns it compiles, and what a
    compiled pattern matches) are parameters of the development. *)

From Stdlib Require Import ZArith NArith List Ascii String.
From stdpp Require Import gmap strings list fin_maps pretty.

Open Scope string_scope.
Open Scope list_scope.

(** ** Python values *)

(** The values held by the dictionaries of this program: [None], booleans,
    strings and [datetime]s (milliseconds since the epoch, the precision
    at which the store keeps them). *)
Inductive value : Type :=
  | VNull
  | VBool (b : bool)
  | VStr (s : string)
  | VDate (t : Z).

#[global] Instance value_eq_dec : EqDecision value.
Proof. solve_decision. Defined.

(** A Python [dict] with string keys. *)
Abbreviation dict := (gmap string value).

Module Py.

(** [d.get(k)]: the value at [k], [None] when the key is absent. *)
Definition get (d : dict) (k : string) : value :=
  default VNull (d !! k).

(** [d.get(k, dflt)]. *)
Definition get_default (d : dict) (k : string) (dflt : value) : value :=
  default dflt (d !! k).

(** Truth value of an object, as tested by [if] and [not]. *)
Definition truthy (v : value) : bool :=
  match v with
  | VNull => false
  | VBool b => b
  | VStr s => negb (String.eqb s "")
  | VDate _ => true
  end.

(** [x in l] for a list [l]. *)
Definition contains (x : value) (l : list value) : bool :=
  existsb (fun y => bool_decide (x = y)) l.

(** [s.startswith(p)]. *)
Definition startswith (s p : string) : bool := String.prefix p s.

(** [s.replace(old, "")] for a non-empty [old]: every occurrence of
    [old], found from left to right without overlap, is dropped.
    [skip] counts the characters of the occurrence being dropped. *)
Fixpoint remove_from (old : string) (skip : nat) (s : string) : string :=
  match s with
  | EmptyString => EmptyString
  | String c s' =>
      match skip with
      | S k => remove_from old k s'
      | O =>
          if String.prefix old s
          then remove_from old (String.length old - 1) s'
          else String c (remove_from old 0 s')
      end
  end.

Definition remove_all (s old : string) : string := remove_from old 0 s.

End Py.

(** ** The document store *)

Module Mongo.

Definition ObjectId := N.

(** A stored document: its [_id] and its other fields.  Every stored
    document has an [_id], so as a Python [dict] it is never empty. *)
Record document : Type := Document {
  _id : ObjectId;
  fields : dict
}.

#[global] Instance document_eq_dec : EqDecision document.
Proof. solve_decision. Defined.

Abbreviation collection := (list document).

(** The query operators the handlers use on a field. *)
Inductive operator : Type :=
  | op_eq (v : value)                (* {field: v} *)
  | op_nin (l : list value)          (* {field: {"$nin": l}} *)
  | op_regex (pattern : string).     (* {field: {"$regex": pattern}} *)

Inductive query : Type :=
  | by_id (oid : ObjectId)                       (* {"_id": oid} *)
  | by_field (k : string) (ops : list operator). (* {k: {op, ...}} *)

(** A projection [{"_id": 0}] returns the document without its [_id]. *)
Definition without_id (d : document) : dict := fields d.

(** [str(oid)]: the 24 hexadecimal digits of a 12-byte identifier. *)
Definition hex_digit (n : N) : ascii :=
  match n with
  | 0 => "0" | 1 => "1" | 2 => "2" | 3 => "3" | 4 => "4" | 5 => "5"
  | 6 => "6" | 7 => "7" | 8 => "8" | 9 => "9" | 10 => "a" | 11 => "b"
  | 12 => "c" | 13 => "d" | 14 => "e" | _ => "f"
  end%N%char.

Fixpoint hex_pad (digits : nat) (x : N) (acc : string) : string :=
  match digits with
  | O => acc
  | S k => hex_pad k (x / 16)%N (String (hex_digit (x mod 16)%N) acc)
  end.

Definition str_ObjectId (oid : ObjectId) : string := hex_pad 24 oid "".

Section Store.

(** The store's regular-expression search: [regex_search pattern s]
    holds when [pattern] matches somewhere in [s]. *)
Variable regex_search : string -> string -> bool.

(** The patterns the store compiles.  A query that holds any other
    pattern is refused: the driver raises [OperationFailure]. *)
Variable regex_valid : string -> bool.

Definition compiles (op : operator) : bool :=
  match op with
  | op_regex pattern => regex_valid pattern
  | _ => true
  end.

Definition well_formed (q : query) : bool :=
  match q with
  | by_id _ => true
  | by_field _ ops => forallb compiles ops
  end.

Definition holds (field : option value) (op : operator) : bool :=
  match op with
  | op_eq v => bool_decide (default VNull field = v)
  | op_nin l =>
      match field with
      | Some v => negb (Py.contains v l)
      | None => true
      end
  | op_regex pattern =>
      match field with
      | Some (VStr s) => regex_search pattern s
      | _ => false
      end
  end.

Definition matches (q : query) (d : document) : bool :=
  match q with
  | by_id oid => bool_decide (_id d = oid)
  | by_field k ops => forallb (holds (fields d !! k)) ops
  end.

(** [find_one]: the first matching document, in insertion order. *)
Definition find_one (q : query) (c : collection) : option document :=
  List.find (matches q) c.

(** [find]: all matching documents, for a query the store accepts. *)
Definition find (q : query) (c : collection) : list document :=
  List.filter (matches q) c.

(** The identifier the driver gives to a new document: one that no
    stored document carries. *)
Definition fresh_id (c : collection) : ObjectId :=
  N.succ (fold_right (fun d m => N.max (_id d) m) 0%N c).

(** [insert_one]: the document is stored under a fresh [_id], which
    is returned as [inserted_id]. *)
Definition insert_one (new : dict) (c : collection)
  : collection * ObjectId :=
  let oid := fresh_id c in
  (c ++ [Document oid new], oid).

Record UpdateResult : Type := {
  matched_count : nat;
  modified_count : nat
}.

(** [{"$set": upd}] on the fields of a document. *)
Definition set_fields (upd : dict) (d : document) : document :=
  Document (_id d) (upd ∪ fields d).

(** [update_one]: the first matching document is updated.
    [modified_count] is 0 when the update leaves that document as it
    was. *)
Fixpoint update_one (q : query) (upd : dict) (c : collection)
  : collection * UpdateResult :=
  match c with
  | [] => ([], {| matched_count := 0; modified_count := 0 |})
  | d :: c' =>
      if matches q d then
        (set_fields upd d :: c',
         {| matched_count := 1;
            modified_count :=
              if bool_decide (set_fields upd d = d) then 0 else 1 |})
      else
        let '(c'', r) := update_one q upd c' in (d :: c'', r)
  end.

End Store.

End Mongo.

(** ** auth_service.py *)

Module auth_service.

(** Super admin list. *)
Definition SUPER_ADMINS : list value := [VStr "+919899273448"].

Section Authority.

(** [auth.verify_id_token]: the decoded token, or the message of the
    exception the identity authority raises. *)
Variable verify_id_token : string -> string + dict.

(** Any exception of the authority is raised again as
    [Exception("Invalid token: ...")]. *)
Definition verify_firebase_token (id_token : string) : string + dict :=
  match verify_id_token id_token with
  | inr decoded_token => inr decoded_token
  | inl e => inl ("Invalid token: " ++ e)%string
  end.

End Authority.

Definition is_super_admin (phone_number : value) : bool :=
  Py.contains phone_number SUPER_ADMINS.

(** What [auth.get_user_by_phone_number] does: it returns the user, or
    raises [UserNotFoundError], or raises something else. *)
Inductive phone_lookup : Type :=
  | user_record (user : dict)
  | UserNotFoundError
  | lookup_failure (message : string).

Section Directory.

Variable get_user_by_phone_number : string -> phone_lookup.

(** Get Firebase user by phone number: [None] for an unknown number,
    [Exception("Error fetching user: ...")] for any other failure. *)
Definition get_user_by_phone (phone_number : string)
  : string + option dict :=
  match get_user_by_phone_number phone_number with
  | user_record user => inr (Some user)
  | UserNotFoundError => inr None
  | lookup_failure e => inl ("Error fetching user: " ++ e)%string
  end.

End Directory.

End auth_service.

(** ** server.py *)

Module server.

Import Mongo auth_service.

Record HTTPException : Type := {
  status_code : Z;
  detail : string
}.

(** The request bodies. *)
Record UserProfile : Type := { profile_name : string }.
Record UserUpdate : Type := { update_name : string; update_isActive : bool }.

(** The JSON bodies the handlers return. *)
Inductive response : Type :=
  | health_response (status message : string)
  | login_response (success : bool)
      (phoneNumber name isActive : value) (isSuperAdmin : bool)
  | profile_response (id : string) (user : dict)
  | message_response (success : bool) (message : string)
  | users_response (users : list dict).

Definition result : Type := HTTPException + response.

(** The error kinds of the handlers. *)
Definition invalid_header : HTTPException :=
  {| status_code := 401;
     detail := "Missing or invalid authorization header" |}.
Definition no_phone_number : HTTPException :=
  {| status_code := 401; detail := "Phone number not found in token" |}.
Definition access_denied : HTTPException :=
  {| status_code := 403;
     detail := "Your account has been deactivated. Please contact support." |}.
Definition forbidden : HTTPException :=
  {| status_code := 403; detail := "Access denied" |}.
Definition not_found : HTTPException :=
  {| status_code := 404; detail := "User not found" |}.
Definition invalid_operation : HTTPException :=
  {| status_code := 400; detail := "Cannot edit super admin" |}.
(** What the framework answers when a handler raises anything else. *)
Definition internal_server_error : HTTPException :=
  {| status_code := 500; detail := "Internal Server Error" |}.

Definition by_phoneNumber (phone_number : value) : query :=
  by_field "phoneNumber" [op_eq phone_number].

Section Handlers.

Variable verify_id_token : string -> string + dict.
(** [str(e)] for an [HTTPException] [e]. *)
Variable str_HTTPException : HTTPException -> string.
Variable regex_search : string -> string -> bool.
Variable regex_valid : string -> bool.

(** Helper function to verify token.  The [HTTPException] raised
    inside the [try] is caught by its own [except Exception] and
    raised again with [str(e)] as detail. *)
Definition get_current_user (authorization : option string)
  : HTTPException + dict :=
  match authorization with
  | None => inl invalid_header
  | Some authorization =>
      if negb (Py.truthy (VStr authorization))
         || negb (Py.startswith authorization "Bearer ")
      then inl invalid_header
      else
        let token := Py.remove_all authorization "Bearer " in
        match verify_firebase_token verify_id_token token with
        | inl e => inl {| status_code := 401; detail := e |}
        | inr decoded_token =>
            let phone_number := Py.get decoded_token "phone_number" in
            if negb (Py.truthy phone_number)
            then inl {| status_code := 401;
                        detail := str_HTTPException no_phone_number |}
            else inr decoded_token
        end
  end.

Definition health_check : result :=
  inr (health_response "healthy" "Backend is running").

(** Verify Firebase token and check/create user in MongoDB.
    [utcnow k] is the [k]-th reading of the clock in this request. *)
Definition verify_token (utcnow : nat -> Z) (current_user : dict)
    (users : collection) : collection * result :=
  let phone_number := Py.get current_user "phone_number" in
  let uid := Py.get current_user "uid" in
  let user := find_one regex_search (by_phoneNumber phone_number) users in
  let is_admin := is_super_admin phone_number in
  let '(users, user) :=
    match user with
    | None =>
        let new_user : dict :=
          {[ "phoneNumber" := phone_number;
             "firebaseUid" := uid;
             "name" := VStr "";
             "isActive" := VBool true;
             "isSuperAdmin" := VBool is_admin;
             "createdAt" := VDate (utcnow 0%nat);
             "updatedAt" := VDate (utcnow 1%nat);
             "lastLogin" := VDate (utcnow 2%nat) ]} in
        let '(users, inserted_id) := insert_one new_user users in
        (users, find_one regex_search (by_id inserted_id) users)
    | Some _ =>
        let '(users, _) :=
          update_one regex_search (by_phoneNumber phone_number)
            {[ "lastLogin" := VDate (utcnow 0%nat);
               "isSuperAdmin" := VBool is_admin ]} users in
        (users, find_one regex_search (by_phoneNumber phone_number) users)
    end in
  match user with
  | None => (users, inl internal_server_error)
  | Some user =>
      if negb (Py.truthy (Py.get_default (fields user) "isActive" (VBool true)))
         && negb is_admin
      then (users, inl access_denied)
      else
        match fields user !! "phoneNumber" with
        | None => (users, inl internal_server_error)
        | Some phoneNumber =>
            (users,
             inr (login_response true phoneNumber
                    (Py.get_default (fields user) "name" (VStr ""))
                    (Py.get_default (fields user) "isActive" (VBool true))
                    is_admin))
        end
  end.

(** Get user profile. *)
Definition get_profile (current_user : dict) (users : collection)
  : collection * result :=
  let phone_number := Py.get current_user "phone_number" in
  match find_one regex_search (by_phoneNumber phone_number) users with
  | None => (users, inl not_found)
  | Some user =>
      (users, inr (profile_response (str_ObjectId (_id user)) (fields user)))
  end.

(** Update user profile. *)
Definition update_profile (utcnow : nat -> Z) (profile : UserProfile)
    (current_user : dict) (users : collection) : collection * result :=
  let phone_number := Py.get current_user "phone_number" in
  let '(users, result) :=
    update_one regex_search (by_phoneNumber phone_number)
      {[ "name" := VStr (profile_name profile);
         "updatedAt" := VDate (utcnow 0%nat) ]} users in
  if Nat.eqb (modified_count result) 0
  then (users, inl not_found)
  else (users, inr (message_response true "Profile updated successfully")).

(** Get all users (Super Admin only). *)
Definition get_all_users (current_user : dict) (users : collection)
  : collection * result :=
  let phone_number := Py.get current_user "phone_number" in
  if negb (is_super_admin phone_number)
  then (users, inl forbidden)
  else
    let found :=
      map without_id
        (find regex_search (by_field "phoneNumber" [op_nin SUPER_ADMINS])
           users) in
    (users, inr (users_response found)).

(** Search users by phone number (Super Admin only).  The query string
    goes to [$regex] as it is; when the store refuses it, [find] raises
    and nothing in the handler catches the exception. *)
Definition search_users (query : string) (current_user : dict)
    (users : collection) : collection * result :=
  let phone_number := Py.get current_user "phone_number" in
  if negb (is_super_admin phone_number)
  then (users, inl forbidden)
  else
    let q := by_field "phoneNumber" [op_regex query; op_nin SUPER_ADMINS] in
    if negb (well_formed regex_valid q)
    then (users, inl internal_server_error)
    else
      let found := map without_id (find regex_search q users) in
      (users, inr (users_response found)).

(** Update user (Super Admin only). *)
Definition update_user (utcnow : nat -> Z) (user_phone : string)
    (update : UserUpdate) (current_user : dict) (users : collection)
  : collection * result :=
  let phone_number := Py.get current_user "phone_number" in
  if negb (is_super_admin phone_number)
  then (users, inl forbidden)
  else if Py.contains (VStr user_phone) SUPER_ADMINS
  then (users, inl invalid_operation)
  else
    let '(users, result) :=
      update_one regex_search (by_phoneNumber (VStr user_phone))
        {[ "name" := VStr (update_name update);
           "isActive" := VBool (update_isActive update);
           "updatedAt" := VDate (utcnow 0%nat) ]} users in
    if Nat.eqb (matched_count result) 0
    then (users, inl not_found)
    else (users, inr (message_response true "User updated successfully")).

(** The routes of the application. *)
Inductive request : Type :=
  | GET_health
  | POST_auth_verify_token
  | GET_users_profile
  | PUT_users_profile (profile : UserProfile)
  | GET_admin_users
  | GET_admin_users_search (query : string)
  | PUT_admin_users (user_phone : string) (update : UserUpdate).

(** One request: the [get_current_user] dependency runs first, and
    the handler runs only when it returns. *)
Definition handle (authorization : option string) (utcnow : nat -> Z)
    (req : request) (users : collection) : collection * result :=
  match req with
  | GET_health => (users, health_check)
  | _ =>
      match get_current_user authorization with
      | inl e => (users, inl e)
      | inr current_user =>
          match req with
          | GET_health => (users, health_check)
          | POST_auth_verify_token => verify_token utcnow current_user users
          | GET_users_profile => get_profile current_user users
          | PUT_users_profile profile =>
              update_profile utcnow profile current_user users
          | GET_admin_users => get_all_users current_user users
          | GET_admin_users_search query =>
              search_users query current_user users
          | PUT_admin_users user_phone update =>
              update_user utcnow user_phone update current_user users
          end
      end
  end.

End Handlers.

End server.

(** ** Vocabulary of the specification *)

Import Mongo auth_service server.

(** No document of [c] matches the query: the documents that [find_one]
    and [update_one] pass over before they reach the first match. *)
Definition no_match (regex_search : string -> string -> bool)
    (q : query) (c : collection) : Prop :=
  Forall (fun d => matches regex_search q d = false) c.

(** The record's [phoneNumber] is in the admin allow-list. *)
Definition allow_listed (d : document) : Prop :=
  exists v, fields d !! "phoneNumber" = Some v /\ v ∈ SUPER_ADMINS.

#[global] Instance allow_listed_dec d : Decision (allow_listed d).
Proof.
  unfold allow_listed. destruct (fields d !! "phoneNumber") as [v|].
  - destruct (decide (v ∈ SUPER_ADMINS)) as [Hin|Hout].
    + left. eauto.
    + right. intros (w & Hw & Hin). congruence.
  - right. intros (w & Hw & _). discriminate.
Defined.

(** The record's [phoneNumber] is a string that the pattern matches. *)
Definition phone_matches (regex_search : string -> string -> bool)
    (pattern : string) (d : document) : Prop :=
  exists s, fields d !! "phoneNumber" = Some (VStr s)
            /\ regex_search pattern s = true.

#[global] Instance phone_matches_dec rs pattern d :
  Decision (phone_matches rs pattern d).
Proof.
  unfold phone_matches. destruct (fields d !! "phoneNumber") as [[| |s|]|];
    try (right; intros (w & Hw & _); discriminate).
  destruct (rs pattern s) eqn:E.
  - left. eauto.
  - right. intros (w & Hw & Hm). congruence.
Defined.

(** The [$set] of a login. *)
Definition login_update (utcnow : nat -> Z) (phone_number : value) : dict :=
  {[ "lastLogin" := VDate (utcnow 0%nat);
     "isSuperAdmin" := VBool (is_super_admin phone_number) ]}.

(** The document a first login stores. *)
Definition new_user (utcnow : nat -> Z) (current_user : dict) : dict :=
  {[ "phoneNumber" := Py.get current_user "phone_number";
     "firebaseUid" := Py.get current_user "uid";
     "name" := VStr "";
     "isActive" := VBool true;
     "isSuperAdmin" :=
       VBool (is_super_admin (Py.get current_user "phone_number"));
     "createdAt" := VDate (utcnow 0%nat);
     "updatedAt" := VDate (utcnow 1%nat);
     "lastLogin" := VDate (utcnow 2%nat) ]}.

(** The [$set] of a profile update. *)
Definition profile_update (utcnow : nat -> Z) (profile : UserProfile) : dict :=
  {[ "name" := VStr (profile_name profile);
     "updatedAt" := VDate (utcnow 0%nat) ]}.

(** The [$set] of an update by an admin. *)
Definition admin_update (utcnow : nat -> Z) (update : UserUpdate) : dict :=
  {[ "name" := VStr (update_name update);
     "isActive" := VBool (update_isActive update);
     "updatedAt" := VDate (utcnow 0%nat) ]}.

(** The routes that require the caller to be super admin. *)
Definition admin_request (req : request) : bool :=
  match req with
  | GET_admin_users | GET_admin_users_search _ | PUT_admin_users _ _ => true
  | _ => false
  end.

(** The routes that depend on [get_current_user]. *)
Definition bearer_required (req : request) : bool :=
  match req with
  | GET_health => false
  | _ => true
  end.

(** The routes that only read the store. *)
Definition read_only (req : request) : bool :=
  match req with
  | GET_health | GET_users_profile | GET_admin_users
  | GET_admin_users_search _ => true
  | _ => false
  end.

(** The phone number a record is found by: [None] when the field is
    absent, as the store's equality match has it. *)
Definition phone_of (d : document) : value :=
  Py.get (fields d) "phoneNumber".

(** What identifies a record: its [_id], and the fields that are set
    when it is created and that no [$set] of the handlers names. *)
Definition identity (d : document)
  : ObjectId * option value * option value * option value :=
  (_id d, fields d !! "phoneNumber", fields d !! "firebaseUid",
   fields d !! "createdAt").

(** The string holds no space. *)
Fixpoint no_space (s : string) : bool :=
  match s with
  | EmptyString => true
  | String c s' => negb (Ascii.eqb c " ") && no_space s'
  end.

(** The writes to the store: what a request of the caller
    [current_user] may turn the collection into, when it changes it. *)
Inductive change (regex_search : string -> string -> bool)
    (utcnow : nat -> Z) (current_user : dict)
  : request -> collection -> collection -> Prop :=
  | change_first_login users :
      no_match regex_search
        (by_phoneNumber (Py.get current_user "phone_number")) users ->
      change regex_search utcnow current_user POST_auth_verify_token users
        (users ++ [Document (fresh_id users) (new_user utcnow current_user)])
  | change_login before d after :
      no_match regex_search
        (by_phoneNumber (Py.get current_user "phone_number")) before ->
      phone_of d = Py.get current_user "phone_number" ->
      change regex_search utcnow current_user POST_auth_verify_token
        (before ++ d :: after)
        (before
         ++ set_fields
              (login_update utcnow (Py.get current_user "phone_number")) d
         :: after)
  | change_profile profile before d after :
      no_match regex_search
        (by_phoneNumber (Py.get current_user "phone_number")) before ->
      phone_of d = Py.get current_user "phone_number" ->
      change regex_search utcnow current_user (PUT_users_profile profile)
        (before ++ d :: after)
        (before ++ set_fields (profile_update utcnow profile) d :: after)
  | change_user user_phone update before d after :
      Py.get current_user "phone_number" ∈ SUPER_ADMINS ->
      VStr user_phone ∉ SUPER_ADMINS ->
      no_match regex_search (by_phoneNumber (VStr user_phone)) before ->
      phone_of d = VStr user_phone ->
      change regex_search utcnow current_user
        (PUT_admin_users user_phone update)
        (before ++ d :: after)
        (before ++ set_fields (admin_update utcnow update) d :: after).

(** ** A small deployment, for the examples *)

Module Demo.

(** The store of the examples compiles a fragment of the pattern
    syntax: a literal character, a backslash before a character that is
    neither a letter nor a digit (that character, literally), [.], the
    anchors [^] and [$], and one of the quantifiers [*], [+], [?] after
    a character or [.].  A quantifier with nothing before it is refused,
    as every engine refuses it; so is, here, whatever lies outside the
    fragment (groups, classes, alternation, braces, letter escapes,
    stacked quantifiers), which the examples do not use.  Subjects hold
    no newline. *)
Inductive atom : Type :=
  | lit (c : ascii)
  | any
  | bol
  | eol.

Inductive quantifier : Type :=
  | once
  | star
  | plus
  | opt.

Inductive token : Type :=
  | t_atom (a : atom)
  | t_quantifier (q : quantifier)
  | t_other.

Definition is_alnum (c : ascii) : bool :=
  let n := nat_of_ascii c in
  (48 <=? n)%nat && (n <=? 57)%nat
  || (65 <=? n)%nat && (n <=? 90)%nat
  || (97 <=? n)%nat && (n <=? 122)%nat.

Definition token_of (c : ascii) : token :=
  if Ascii.eqb c "." then t_atom any
  else if Ascii.eqb c "^" then t_atom bol
  else if Ascii.eqb c "$" then t_atom eol
  else if Ascii.eqb c "*" then t_quantifier star
  else if Ascii.eqb c "+" then t_quantifier plus
  else if Ascii.eqb c "?" then t_quantifier opt
  else if existsb (Ascii.eqb c) ["("; ")"; "["; "]"; "{"; "}"; "|"]%char
  then t_other
  else t_atom (lit c).

Fixpoint tokens (s : string) : list token :=
  match s with
  | EmptyString => []
  | String c s' =>
      if Ascii.eqb c "\"
      then match s' with
           | EmptyString => [t_other]
           | String e s'' =>
               (if is_alnum e then t_other else t_atom (lit e)) :: tokens s''
           end
      else token_of c :: tokens s'
  end.

Fixpoint parse (ts : list token) : option (list (atom * quantifier)) :=
  match ts with
  | [] => Some []
  | t_atom a :: ts' =>
      match ts' with
      | t_quantifier q :: ts'' =>
          match a with
          | bol | eol => None
          | _ => cons (a, q) <$> parse ts''
          end
      | _ => cons (a, once) <$> parse ts'
      end
  | _ => None
  end.

Definition accepts (a : atom) (c : ascii) : bool :=
  match a with
  | lit x => Ascii.eqb x c
  | any => true
  | _ => false
  end.

(** Does the pattern match at the head of [s]?  [at_start] says that
    [s] is the whole subject. *)
Fixpoint match_here (p : list (atom * quantifier)) (at_start : bool)
    (s : string) {struct p} : bool :=
  match p with
  | [] => true
  | (bol, _) :: p' => at_start && match_here p' at_start s
  | (eol, _) :: p' =>
      match s with EmptyString => match_here p' at_start s | _ => false end
  | (a, q) :: p' =>
      let many :=
        fix many (s : string) : bool :=
          match_here p' false s
          || match s with
             | String c s' => accepts a c && many s'
             | EmptyString => false
             end in
      match q with
      | once =>
          match s with
          | String c s' => accepts a c && match_here p' false s'
          | EmptyString => false
          end
      | opt =>
          match_here p' at_start s
          || match s with
             | String c s' => accepts a c && match_here p' false s'
             | EmptyString => false
             end
      | star =>
          match_here p' at_start s
          || match s with
             | String c s' => accepts a c && many s'
             | EmptyString => false
             end
      | plus =>
          match s with
          | String c s' => accepts a c && many s'
          | EmptyString => false
          end
      end
  end.

Fixpoint search_from (p : list (atom * quantifier)) (at_start : bool)
    (s : string) : bool :=
  match_here p at_start s
  || match s with
     | String _ s' => search_from p false s'
     | EmptyString => false
     end.

Definition regex_valid (pattern : string) : bool :=
  match parse (tokens pattern) with
  | Some _ => true
  | None => false
  end.

Definition regex_search (pattern s : string) : bool :=
  match parse (tokens pattern) with
  | Some p => search_from p true s
  | None => false
  end.

(** [str(e)] as the framework has it: the status code, a colon, the
    detail. *)
Definition str_HTTPException (e : HTTPException) : string :=
  (pretty (status_code e) ++ ": " ++ detail e)%string.

Definition admin_claims : dict :=
  {[ "phone_number" := VStr "+919899273448"; "uid" := VStr "uid0" ]}.
Definition user_claims : dict :=
  {[ "phone_number" := VStr "+911111111111"; "uid" := VStr "uid1" ]}.
Definition anonymous_claims : dict :=
  {[ "uid" := VStr "uid2" ]}.

Definition verify_id_token (id_token : string) : string + dict :=
  if String.eqb id_token "admin-token" then inr admin_claims
  else if String.eqb id_token "user-token" then inr user_claims
  else if String.eqb id_token "anonymous-token" then inr anonymous_claims
  else inl "Token expired".

Definition utcnow (k : nat) : Z := 1700000000000.

Definition asha : document :=
  Document 1%N {[ "phoneNumber" := VStr "+911111111111";
                "firebaseUid" := VStr "uid1";
                "name" := VStr "Asha";
                "isActive" := VBool true;
                "isSuperAdmin" := VBool false;
                "createdAt" := VDate 1600000000000;
                "updatedAt" := VDate 1700000000000;
                "lastLogin" := VDate 1600000000000 ]}.

Definition asha_deactivated : document :=
  Document 1%N (<["isActive" := VBool false]> (fields asha)).

Definition root : document :=
  Document 2%N {[ "phoneNumber" := VStr "+919899273448";
                "firebaseUid" := VStr "uid0";
                "name" := VStr "Root";
                "isActive" := VBool false;
                "isSuperAdmin" := VBool true;
                "createdAt" := VDate 1600000000000;
                "updatedAt" := VDate 1600000000000;
                "lastLogin" := VDate 1600000000000 ]}.

Definition users : collection := [asha; root].
Definition users_deactivated : collection := [asha_deactivated; root].

Definition handle :=
  server.handle verify_id_token str_HTTPException regex_search regex_valid.

End Demo.

(** ** Facts about the document store *)

Arguments Py.contains : simpl never.
Arguments is_super_admin : simpl never.

Section StoreFacts.

Variable regex_search : string -> string -> bool.

Local Abbreviation matches := (matches regex_search).
Local Abbreviation find_one := (find_one regex_search).
Local Abbreviation update_one := (update_one regex_search).
Local Abbreviation no_match := (no_match regex_search).

Lemma find_one_None q c : find_one q c = None <-> no_match q c.
Proof.
  unfold find_one, no_match. induction c as [|d c IH]; simpl.
  - split; [constructor | reflexivity].
  - destruct (matches q d) eqn:E.
    + split; [discriminate | intros H; inversion H; congruence].
    + rewrite IH. split; [by constructor | by inversion 1].
Qed.

Lemma find_one_Some q c d :
  find_one q c = Some d ->
  exists before after,
    c = before ++ d :: after /\ no_match q before /\ matches q d = true.
Proof.
  unfold find_one, no_match. induction c as [|x c IH]; simpl; [discriminate|].
  destruct (matches q x) eqn:E.
  - intros [= ->]. exists [], c. by repeat split.
  - intros H. destruct (IH H) as (b & a & -> & Hb & Hd).
    exists (x :: b), a. repeat split; [| done]. by constructor.
Qed.

Lemma find_one_first q before d after :
  no_match q before -> matches q d = true ->
  find_one q (before ++ d :: after) = Some d.
Proof.
  unfold find_one, no_match. induction 1 as [|x b Hx _ IH]; simpl; intros Hd.
  - by rewrite Hd.
  - rewrite Hx. by apply IH.
Qed.

Lemma update_one_no_match q upd c :
  no_match q c ->
  update_one q upd c = (c, {| matched_count := 0; modified_count := 0 |}).
Proof.
  unfold no_match. induction 1 as [|x c Hx _ IH]; simpl; [done|].
  by rewrite Hx, IH.
Qed.

Lemma update_one_first q upd before d after :
  no_match q before -> matches q d = true ->
  update_one q upd (before ++ d :: after)
  = (before ++ set_fields upd d :: after,
     {| matched_count := 1;
        modified_count :=
          if bool_decide (set_fields upd d = d) then 0 else 1 |}).
Proof.
  unfold no_match. induction 1 as [|x b Hx _ IH]; simpl; intros Hd.
  - by rewrite Hd.
  - rewrite Hx, IH; done.
Qed.

(** A [$set] that leaves the queried field alone keeps the document
    matching. *)
Lemma matches_set_fields k ops upd d :
  upd !! k = None ->
  matches (by_field k ops) (set_fields upd d) = matches (by_field k ops) d.
Proof.
  intros Hk. simpl. by rewrite lookup_union_r.
Qed.

Lemma fresh_id_bound c : Forall (fun d => (_id d < fresh_id c)%N) c.
Proof.
  unfold fresh_id. induction c as [|d c IH]; simpl; constructor.
  - lia.
  - eapply Forall_impl; [exact IH|]. simpl. intros x Hx. lia.
Qed.

Lemma fresh_id_no_match c : no_match (by_id (fresh_id c)) c.
Proof.
  unfold no_match. eapply Forall_impl; [apply fresh_id_bound|].
  simpl. intros d Hd. apply bool_decide_eq_false. lia.
Qed.

Lemma no_match_filter_nil q c : no_match q c -> find regex_search q c = [].
Proof.
  unfold no_match, find. induction 1 as [|x c Hx _ IH]; simpl; [done|].
  by rewrite Hx.
Qed.

End StoreFacts.

(** ** The admin classifier *)

Lemma contains_elem_of (x : value) (l : list value) :
  Py.contains x l = true <-> x ∈ l.
Proof.
  unfold Py.contains. rewrite existsb_exists. split.
  - intros (y & Hy & Heq). apply bool_decide_eq_true in Heq. subst.
    by apply list_elem_of_In.
  - intros Hx. exists x. split; [by apply list_elem_of_In|].
    by apply bool_decide_eq_true.
Qed.

Lemma contains_not_elem_of (x : value) (l : list value) :
  Py.contains x l = false <-> x ∉ l.
Proof.
  rewrite <- contains_elem_of. destruct (Py.contains x l); split; congruence.
Qed.

(** C4: [is_super_admin] depends on its argument and on the allow-list
    only; it is true on every phone number of the allow-list and false on
    every other one. *)
Theorem is_super_admin_allow_list (phone_number : value) :
  (phone_number ∈ SUPER_ADMINS -> is_super_admin phone_number = true)
  /\ (phone_number ∉ SUPER_ADMINS -> is_super_admin phone_number = false).
Proof.
  unfold is_super_admin. split.
  - apply contains_elem_of.
  - apply contains_not_elem_of.
Qed.

Lemma is_super_admin_allow_list_witness :
  is_super_admin (VStr "+919899273448") = true
  /\ is_super_admin (VStr "+911111111111") = false.
Proof.
  split.
  - apply (proj1 (is_super_admin_allow_list (VStr "+919899273448"))).
    compute_done.
  - apply (proj2 (is_super_admin_allow_list (VStr "+911111111111"))).
    compute_done.
Defined.

(** ** The handlers *)

Section HandlerFacts.

Variable verify_id_token : string -> string + dict.
Variable str_HTTPException : HTTPException -> string.
Variable regex_search : string -> string -> bool.
Variable regex_valid : string -> bool.

Local Abbreviation get_current_user :=
  (get_current_user verify_id_token str_HTTPException).
Local Abbreviation handle :=
  (handle verify_id_token str_HTTPException regex_search regex_valid).
Local Abbreviation find_one := (find_one regex_search).
Local Abbreviation no_match := (no_match regex_search).
Local Abbreviation verify_token := (verify_token regex_search).
Local Abbreviation get_profile := (get_profile regex_search).
Local Abbreviation update_profile := (update_profile regex_search).
Local Abbreviation get_all_users := (get_all_users regex_search).
Local Abbreviation search_users := (search_users regex_search regex_valid).
Local Abbreviation update_user := (update_user regex_search).

(** A request whose credential is accepted reaches its handler. *)
Lemma handle_authenticated authorization current_user utcnow req users :
  get_current_user authorization = inr current_user ->
  handle authorization utcnow req users =
    match req with
    | GET_health => (users, health_check)
    | POST_auth_verify_token => verify_token utcnow current_user users
    | GET_users_profile => get_profile current_user users
    | PUT_users_profile profile =>
        update_profile utcnow profile current_user users
    | GET_admin_users => get_all_users current_user users
    | GET_admin_users_search query => search_users query current_user users
    | PUT_admin_users user_phone update =>
        update_user utcnow user_phone update current_user users
    end.
Proof.
  intros Hcu. unfold server.handle. rewrite Hcu. by destruct req.
Qed.

(** A request whose credential is refused stops there: the handler does
    not run and the store is as it was. *)
Lemma handle_rejected authorization e utcnow req users :
  get_current_user authorization = inl e ->
  bearer_required req = true ->
  handle authorization utcnow req users = (users, inl e).
Proof.
  intros He Hreq. unfold server.handle. rewrite He.
  by destruct req.
Qed.

Lemma startswith_nonempty a p :
  p <> "" -> Py.startswith a p = true -> Py.truthy (VStr a) = true.
Proof.
  intros Hp. destruct a; simpl; [|done].
  destruct p; [done | discriminate].
Qed.

(** C9: on every route that requires a bearer credential, a request
    with no [Authorization] header, or with one that does not begin
    with ["Bearer "], is answered 401; so is a request whose token the
    authority accepts but which carries no phone-number claim.  The
    handler does not run: the store is unchanged. *)
Theorem missing_credential_unauthorized authorization utcnow req users :
  bearer_required req = true ->
  authorization = None
  \/ (exists a, authorization = Some a
                /\ Py.startswith a "Bearer " = false)
  \/ (exists a decoded_token,
        authorization = Some a
        /\ Py.startswith a "Bearer " = true
        /\ verify_id_token (Py.remove_all a "Bearer ") = inr decoded_token
        /\ decoded_token !! "phone_number" = None) ->
  exists e,
    handle authorization utcnow req users = (users, inl e)
    /\ status_code e = 401%Z.
Proof.
  intros Hreq Hcases.
  assert (exists e, get_current_user authorization = inl e
                    /\ status_code e = 401%Z) as (e & He & H401).
  { unfold server.get_current_user.
    destruct Hcases as [-> | [(a & -> & Hpre) | (a & tok & -> & Hpre & Htok & Hphone)]].
    - by exists invalid_header.
    - exists invalid_header. by rewrite Hpre, orb_true_r.
    - rewrite Hpre, (startswith_nonempty a "Bearer ") by done. simpl.
      unfold verify_firebase_token. rewrite Htok.
      unfold Py.get. rewrite Hphone. simpl. eauto. }
  exists e. split; [|done]. by apply handle_rejected.
Qed.

(** C8: a caller whose verified phone number is not in the allow-list
    gets 403 Forbidden from each admin route; no user data is returned
    and the store is unchanged. *)
Theorem admin_routes_forbidden authorization current_user utcnow req users :
  get_current_user authorization = inr current_user ->
  Py.get current_user "phone_number" ∉ SUPER_ADMINS ->
  admin_request req = true ->
  handle authorization utcnow req users = (users, inl forbidden)
  /\ status_code forbidden = 403%Z.
Proof.
  intros Hcu Hout Hreq. split; [|done].
  rewrite (handle_authenticated _ _ _ _ _ Hcu).
  apply contains_not_elem_of in Hout.
  destruct req; try discriminate;
    unfold server.get_all_users, server.search_users, server.update_user,
      is_super_admin; by rewrite Hout.
Qed.

(** *** Reconciliation and gate *)

(** What [verify_token] does when the store has a record for the
    phone number: the first such record gets the login update, and the
    gate reads its [isActive]. *)
Lemma verify_token_existing utcnow current_user before d after :
  let phone_number := Py.get current_user "phone_number" in
  no_match (by_phoneNumber phone_number) before ->
  matches regex_search (by_phoneNumber phone_number) d = true ->
  verify_token utcnow current_user (before ++ d :: after) =
    (before ++ set_fields (login_update utcnow phone_number) d :: after,
     if negb (Py.truthy (Py.get_default (fields d) "isActive" (VBool true)))
        && negb (is_super_admin phone_number)
     then inl access_denied
     else
       match fields d !! "phoneNumber" with
       | None => inl internal_server_error
       | Some phoneNumber =>
           inr (login_response true phoneNumber
                  (Py.get_default (fields d) "name" (VStr ""))
                  (Py.get_default (fields d) "isActive" (VBool true))
                  (is_super_admin phone_number))
       end).
Proof.
  intros p Hb Hd. unfold server.verify_token. fold p.
  rewrite (find_one_first _ _ _ _ _ Hb Hd).
  rewrite (update_one_first _ _ _ _ _ _ Hb Hd).
  fold (login_update utcnow p).
  assert (matches regex_search (by_phoneNumber p)
            (set_fields (login_update utcnow p) d) = true) as Hd'.
  { unfold by_phoneNumber. rewrite matches_set_fields; [done|].
    unfold login_update. by simplify_map_eq. }
  rewrite (find_one_first _ _ _ _ _ Hb Hd').
  unfold Py.get_default, set_fields, login_update. simpl.
  rewrite !lookup_union_r by (by simplify_map_eq).
  destruct (negb _ && negb _); [done|].
  by destruct (fields d !! "phoneNumber").
Qed.

(** What [verify_token] does when the store has no record for the
    phone number. *)
Lemma verify_token_absent utcnow current_user users :
  let phone_number := Py.get current_user "phone_number" in
  no_match (by_phoneNumber phone_number) users ->
  verify_token utcnow current_user users =
    (users ++ [Document (fresh_id users) (new_user utcnow current_user)],
     inr (login_response true phone_number (VStr "") (VBool true)
            (is_super_admin phone_number))).
Proof.
  intros p Hnone. unfold server.verify_token, new_user. fold p.
  rewrite (proj2 (find_one_None _ _ _) Hnone).
  unfold insert_one.
  rewrite (find_one_first regex_search (by_id (fresh_id users)) users _ []);
    [| apply fresh_id_no_match | by apply bool_decide_eq_true].
  unfold Py.get_default. simpl. by simplify_map_eq.
Qed.

Lemma find_single q users d :
  no_match q users -> matches regex_search q d = true ->
  find regex_search q (users ++ [d]) = [d].
Proof.
  intros Hnone Hd. unfold find. rewrite List.filter_app.
  fold (find regex_search q users). rewrite (no_match_filter_nil _ _ _ Hnone).
  simpl. by rewrite Hd.
Qed.

Lemma matches_new_user utcnow current_user oid :
  matches regex_search (by_phoneNumber (Py.get current_user "phone_number"))
    (Document oid (new_user utcnow current_user)) = true.
Proof.
  unfold new_user. simpl. rewrite andb_true_r. apply bool_decide_eq_true.
  by simplify_map_eq.
Qed.

(** C2: when the store has no record for the phone number, the login
    adds exactly one record, with [isActive] true, an empty [name],
    [isSuperAdmin] as the classifier says, and [createdAt],
    [updatedAt], [lastLogin] set to the readings of the clock taken for
    them; a second login for the same phone number adds no record. *)
Theorem first_login_creates_one_record utcnow current_user users :
  find_one (by_phoneNumber (Py.get current_user "phone_number")) users
    = None ->
  exists d,
    verify_token utcnow current_user users =
      (users ++ [d],
       inr (login_response true (Py.get current_user "phone_number")
              (VStr "") (VBool true)
              (is_super_admin (Py.get current_user "phone_number"))))
    /\ find regex_search
         (by_phoneNumber (Py.get current_user "phone_number")) (users ++ [d])
       = [d]
    /\ fields d !! "phoneNumber" = Some (Py.get current_user "phone_number")
    /\ fields d !! "isActive" = Some (VBool true)
    /\ fields d !! "name" = Some (VStr "")
    /\ fields d !! "isSuperAdmin"
       = Some (VBool (is_super_admin (Py.get current_user "phone_number")))
    /\ fields d !! "createdAt" = Some (VDate (utcnow 0%nat))
    /\ fields d !! "updatedAt" = Some (VDate (utcnow 1%nat))
    /\ fields d !! "lastLogin" = Some (VDate (utcnow 2%nat))
    /\ forall utcnow' current_user',
         Py.get current_user' "phone_number"
           = Py.get current_user "phone_number" ->
         exists d',
           fst (verify_token utcnow' current_user' (users ++ [d]))
             = users ++ [d']
           /\ _id d' = _id d
           /\ find regex_search
                (by_phoneNumber (Py.get current_user "phone_number"))
                (users ++ [d'])
              = [d'].
Proof.
  intros Hnone. apply find_one_None in Hnone.
  exists (Document (fresh_id users) (new_user utcnow current_user)).
  split; [by apply verify_token_absent|].
  split; [apply find_single; [done | apply matches_new_user]|].
  repeat (split; [by (unfold new_user; simplify_map_eq)|]).
  intros utcnow' cu' Hsame.
  eexists. rewrite verify_token_existing;
    rewrite ?Hsame; [| done | apply matches_new_user].
  simpl. split; [reflexivity|]. split; [reflexivity|].
  apply find_single; [done|].
  unfold by_phoneNumber. rewrite matches_set_fields;
    [apply matches_new_user | unfold login_update; by simplify_map_eq].
Qed.

(** C3: when the store has a record for the phone number, the login
    writes [lastLogin] and [isSuperAdmin] (the classifier's result) on
    that record, and nothing else: its [_id] and every other field, and
    every other record, are as they were. *)
Theorem login_overwrites_two_fields utcnow current_user users d :
  find_one (by_phoneNumber (Py.get current_user "phone_number")) users
    = Some d ->
  exists before after d',
    users = before ++ d :: after
    /\ no_match (by_phoneNumber (Py.get current_user "phone_number")) before
    /\ fst (verify_token utcnow current_user users) = before ++ d' :: after
    /\ fields d' !! "lastLogin" = Some (VDate (utcnow 0%nat))
    /\ fields d' !! "isSuperAdmin"
       = Some (VBool (is_super_admin (Py.get current_user "phone_number")))
    /\ _id d' = _id d
    /\ forall k, k <> "lastLogin" -> k <> "isSuperAdmin" ->
         fields d' !! k = fields d !! k.
Proof.
  intros Hfound.
  destruct (find_one_Some _ _ _ _ Hfound) as (before & after & -> & Hb & Hd).
  exists before, after,
    (set_fields (login_update utcnow (Py.get current_user "phone_number")) d).
  rewrite verify_token_existing by done.
  unfold login_update. simpl.
  repeat (split; [by simplify_map_eq|]).
  intros k Hk1 Hk2. rewrite lookup_union_r; [done|]. by simplify_map_eq.
Qed.

(** C10: for a deactivated record whose phone number is not
    allow-listed, the login writes [lastLogin] and [isSuperAdmin] on the
    stored record and then fails with AccessDenied: the store the error
    leaves behind differs from the one it found whenever [lastLogin]
    held another value. *)
Theorem deactivated_login_is_recorded utcnow current_user users d :
  find_one (by_phoneNumber (Py.get current_user "phone_number")) users
    = Some d ->
  fields d !! "isActive" = Some (VBool false) ->
  Py.get current_user "phone_number" ∉ SUPER_ADMINS ->
  exists before after d',
    users = before ++ d :: after
    /\ no_match (by_phoneNumber (Py.get current_user "phone_number")) before
    /\ verify_token utcnow current_user users
       = (before ++ d' :: after, inl access_denied)
    /\ fields d' !! "lastLogin" = Some (VDate (utcnow 0%nat))
    /\ fields d' !! "isSuperAdmin" = Some (VBool false)
    /\ (fields d !! "lastLogin" <> Some (VDate (utcnow 0%nat)) ->
        fst (verify_token utcnow current_user users) <> users).
Proof.
  intros Hfound Hinactive Hout.
  apply contains_not_elem_of in Hout. fold (is_super_admin (Py.get current_user "phone_number")) in Hout.
  destruct (find_one_Some _ _ _ _ Hfound) as (before & after & -> & Hb & Hd).
  exists before, after,
    (set_fields (login_update utcnow (Py.get current_user "phone_number")) d).
  rewrite verify_token_existing by done.
  unfold Py.get_default, login_update. rewrite Hinactive, Hout. simpl.
  repeat (split; [by simplify_map_eq|]).
  intros Hlast Heq. apply app_inv_head in Heq.
  injection Heq as Heq. apply Hlast.
  rewrite <- Heq at 1. simpl. by simplify_map_eq.
Qed.

(** *** Profile routes *)

Lemma get_profile_existing current_user users d :
  find_one (by_phoneNumber (Py.get current_user "phone_number")) users
    = Some d ->
  get_profile current_user users
  = (users, inr (profile_response (str_ObjectId (_id d)) (fields d))).
Proof. intros Hfound. unfold server.get_profile. by rewrite Hfound. Qed.

Lemma update_profile_absent utcnow profile current_user users :
  no_match (by_phoneNumber (Py.get current_user "phone_number")) users ->
  update_profile utcnow profile current_user users = (users, inl not_found).
Proof.
  intros Hnone. unfold server.update_profile.
  by rewrite (update_one_no_match _ _ _ _ Hnone).
Qed.

Lemma update_profile_existing utcnow profile current_user before d after :
  no_match (by_phoneNumber (Py.get current_user "phone_number")) before ->
  matches regex_search
    (by_phoneNumber (Py.get current_user "phone_number")) d = true ->
  update_profile utcnow profile current_user (before ++ d :: after)
  = (before ++ set_fields (profile_update utcnow profile) d :: after,
     if bool_decide (set_fields (profile_update utcnow profile) d = d)
     then inl not_found
     else inr (message_response true "Profile updated successfully")).
Proof.
  intros Hb Hd. unfold server.update_profile.
  rewrite (update_one_first _ _ _ _ _ _ Hb Hd).
  fold (profile_update utcnow profile). simpl.
  by destruct (bool_decide _).
Qed.

Lemma set_fields_same upd d :
  set_fields upd d = d <-> forall k v, upd !! k = Some v -> fields d !! k = Some v.
Proof.
  destruct d as [oid m]. unfold set_fields. simpl. split.
  - intros [= Heq] k v Hk. rewrite <- Heq.
    by apply lookup_union_Some_l.
  - intros Hall. f_equal. apply map_eq. intros k.
    destruct (upd !! k) as [v|] eqn:E.
    + rewrite (lookup_union_Some_l _ _ _ _ E). symmetry. by apply Hall.
    + by rewrite lookup_union_r.
Qed.

(** [update_profile] answers 404 in two cases: no record matches, or
    the first matching record already holds this [name] and this
    [updatedAt]. *)
Lemma update_profile_not_found utcnow profile current_user users :
  snd (update_profile utcnow profile current_user users) = inl not_found
  <-> find_one (by_phoneNumber (Py.get current_user "phone_number")) users
        = None
      \/ exists d,
           find_one (by_phoneNumber (Py.get current_user "phone_number"))
             users = Some d
           /\ fields d !! "name" = Some (VStr (profile_name profile))
           /\ fields d !! "updatedAt" = Some (VDate (utcnow 0%nat)).
Proof.
  destruct (find_one (by_phoneNumber (Py.get current_user "phone_number"))
              users) as [d|] eqn:Hfound.
  - destruct (find_one_Some _ _ _ _ Hfound) as (b & a & -> & Hb & Hd).
    rewrite update_profile_existing by done. simpl.
    case_bool_decide as Hsame.
    + split; [|done]. intros _. right. exists d. split; [done|].
      rewrite set_fields_same in Hsame.
      split; apply Hsame; unfold profile_update; by simplify_map_eq.
    + split; [discriminate|]. intros [? | (d' & [= <-] & Hn & Hu)]; [done|].
      exfalso. apply Hsame. apply set_fields_same. intros k v.
      unfold profile_update.
      destruct (decide (k = "name")) as [->|];
        [|destruct (decide (k = "updatedAt")) as [->|]];
        simplify_map_eq; congruence.
  - apply find_one_None in Hfound.
    rewrite update_profile_absent by done. simpl. split; [by left | done].
Qed.

(** *** Admin routes *)

Lemma admin_handlers_forbidden utcnow current_user users :
  Py.get current_user "phone_number" ∉ SUPER_ADMINS ->
  get_all_users current_user users = (users, inl forbidden)
  /\ (forall query,
        search_users query current_user users = (users, inl forbidden))
  /\ (forall user_phone update,
        update_user utcnow user_phone update current_user users
        = (users, inl forbidden)).
Proof.
  intros Hout. apply contains_not_elem_of in Hout.
  unfold server.get_all_users, server.search_users, server.update_user,
    is_super_admin.
  by rewrite Hout.
Qed.

(** C5: for a super-admin caller, [update_user] on an allow-listed
    target fails with InvalidOperation and leaves the store as it was;
    on another target with no record it fails with NotFound; otherwise
    it sets [name], [isActive] and [updatedAt] on the target's record,
    leaves the rest, and succeeds. *)
Theorem update_user_by_admin utcnow user_phone update current_user users :
  Py.get current_user "phone_number" ∈ SUPER_ADMINS ->
  (VStr user_phone ∈ SUPER_ADMINS ->
     update_user utcnow user_phone update current_user users
     = (users, inl invalid_operation))
  /\ (VStr user_phone ∉ SUPER_ADMINS ->
      find_one (by_phoneNumber (VStr user_phone)) users = None ->
      update_user utcnow user_phone update current_user users
      = (users, inl not_found))
  /\ (VStr user_phone ∉ SUPER_ADMINS ->
      forall d,
        find_one (by_phoneNumber (VStr user_phone)) users = Some d ->
        exists before after d',
          users = before ++ d :: after
          /\ no_match (by_phoneNumber (VStr user_phone)) before
          /\ update_user utcnow user_phone update current_user users
             = (before ++ d' :: after,
                inr (message_response true "User updated successfully"))
          /\ fields d' !! "name" = Some (VStr (update_name update))
          /\ fields d' !! "isActive" = Some (VBool (update_isActive update))
          /\ fields d' !! "updatedAt" = Some (VDate (utcnow 0%nat))
          /\ _id d' = _id d
          /\ forall k, k <> "name" -> k <> "isActive" -> k <> "updatedAt" ->
               fields d' !! k = fields d !! k).
Proof.
  intros Hadmin. apply contains_elem_of in Hadmin.
  unfold server.update_user, is_super_admin. rewrite Hadmin. simpl.
  split; [|split].
  - intros Htarget. apply contains_elem_of in Htarget. by rewrite Htarget.
  - intros Htarget Hnone. apply contains_not_elem_of in Htarget.
    apply find_one_None in Hnone.
    by rewrite Htarget, (update_one_no_match _ _ _ _ Hnone).
  - intros Htarget d Hfound. apply contains_not_elem_of in Htarget.
    destruct (find_one_Some _ _ _ _ Hfound) as (b & a & -> & Hb & Hd).
    exists b, a, (set_fields (admin_update utcnow update) d).
    rewrite Htarget, (update_one_first _ _ _ _ _ _ Hb Hd).
    unfold admin_update. simpl.
    repeat (split; [by simplify_map_eq|]).
    intros k Hk1 Hk2 Hk3. rewrite lookup_union_r; [done|]. by simplify_map_eq.
Qed.





(** C1, as the code has it: the active/deactivated gate is part of the
    login.  For a record with [isActive] false, [verify_token] fails
    with AccessDenied when the phone number is outside the allow-list
    and succeeds when it is inside.  The other routes do not read
    [isActive]: [get_profile] returns the record, [update_profile] with
    a new name succeeds, and the admin routes answer Forbidden to a
    caller outside the allow-list. *)
Theorem deactivated_gate_on_login utcnow current_user users d :
  find_one (by_phoneNumber (Py.get current_user "phone_number")) users
    = Some d ->
  fields d !! "isActive" = Some (VBool false) ->
  (Py.get current_user "phone_number" ∉ SUPER_ADMINS ->
     snd (verify_token utcnow current_user users) = inl access_denied)
  /\ (Py.get current_user "phone_number" ∈ SUPER_ADMINS ->
      snd (verify_token utcnow current_user users)
      = inr (login_response true (Py.get current_user "phone_number")
               (Py.get_default (fields d) "name" (VStr ""))
               (VBool false) true))
  /\ get_profile current_user users
     = (users, inr (profile_response (str_ObjectId (_id d)) (fields d)))
  /\ (forall profile,
        fields d !! "name" <> Some (VStr (profile_name profile)) ->
        snd (update_profile utcnow profile current_user users)
        = inr (message_response true "Profile updated successfully"))
  /\ (Py.get current_user "phone_number" ∉ SUPER_ADMINS ->
      get_all_users current_user users = (users, inl forbidden)
      /\ (forall query,
            search_users query current_user users = (users, inl forbidden))
      /\ (forall user_phone update,
            update_user utcnow user_phone update current_user users
            = (users, inl forbidden))).
Proof.
  intros Hfound Hinactive.
  split; [|split; [|split; [by apply get_profile_existing|split]]].
  - intros Hout. apply contains_not_elem_of in Hout.
    fold (is_super_admin (Py.get current_user "phone_number")) in Hout.
    destruct (find_one_Some _ _ _ _ Hfound) as (b & a & -> & Hb & Hd).
    rewrite verify_token_existing by done.
    unfold Py.get_default. by rewrite Hinactive, Hout.
  - intros Hin. pose proof Hin as Hadmin. apply contains_elem_of in Hadmin.
    fold (is_super_admin (Py.get current_user "phone_number")) in Hadmin.
    destruct (find_one_Some _ _ _ _ Hfound) as (b & a & -> & Hb & Hd).
    rewrite verify_token_existing by done.
    unfold Py.get_default at 1 3. rewrite Hinactive, Hadmin. simpl.
    simpl in Hd. rewrite andb_true_r in Hd. apply bool_decide_eq_true in Hd.
    destruct (fields d !! "phoneNumber") as [v|]; simpl in Hd.
    + by rewrite Hd.
    + rewrite <- Hd in Hin. unfold SUPER_ADMINS in Hin.
      apply list_elem_of_singleton in Hin. discriminate.
  - intros profile Hname.
    destruct (update_profile utcnow profile current_user users) as [us r] eqn:E.
    pose proof (update_profile_not_found utcnow profile current_user users)
      as Hnf.
    rewrite E in Hnf. simpl in *.
    destruct (find_one_Some _ _ _ _ Hfound) as (b & a & -> & Hb & Hd).
    rewrite update_profile_existing in E by done.
    injection E as _ <-. case_bool_decide as Hsame; [|done].
    exfalso. apply Hname. rewrite set_fields_same in Hsame.
    apply Hsame. unfold profile_update. by simplify_map_eq.
  - apply admin_handlers_forbidden.
Qed.

End HandlerFacts.

Lemma missing_credential_unauthorized_witness :
  (exists e, Demo.handle None Demo.utcnow GET_users_profile [Demo.asha]
             = ([Demo.asha], inl e) /\ status_code e = 401%Z)
  /\ (exists e, Demo.handle (Some "Basic dXNlcg==") Demo.utcnow
                  (PUT_admin_users "+911111111111"
                     {| update_name := "x"; update_isActive := false |})
                  [Demo.asha]
                = ([Demo.asha], inl e) /\ status_code e = 401%Z)
  /\ (exists e, Demo.handle (Some "Bearer anonymous-token") Demo.utcnow
                  POST_auth_verify_token [Demo.asha]
                = ([Demo.asha], inl e) /\ status_code e = 401%Z).
Proof.
  repeat split.
  - apply (missing_credential_unauthorized Demo.verify_id_token
             Demo.str_HTTPException Demo.regex_search Demo.regex_valid None);
      [reflexivity | left; reflexivity].
  - apply (missing_credential_unauthorized Demo.verify_id_token
             Demo.str_HTTPException Demo.regex_search Demo.regex_valid
             (Some "Basic dXNlcg=="));
      [reflexivity | right; left; eexists; split; reflexivity].
  - apply (missing_credential_unauthorized Demo.verify_id_token
             Demo.str_HTTPException Demo.regex_search Demo.regex_valid
             (Some "Bearer anonymous-token"));
      [reflexivity
      | right; right; exists "Bearer anonymous-token", Demo.anonymous_claims;
        repeat split; vm_compute; reflexivity].
Defined.

Lemma admin_routes_forbidden_witness :
  Demo.handle (Some "Bearer user-token") Demo.utcnow GET_admin_users
    [Demo.asha; Demo.root]
  = ([Demo.asha; Demo.root], inl forbidden)
  /\ status_code forbidden = 403%Z.
Proof.
  apply (admin_routes_forbidden Demo.verify_id_token Demo.str_HTTPException
           Demo.regex_search Demo.regex_valid (Some "Bearer user-token") Demo.user_claims).
  - vm_compute. reflexivity.
  - compute_done.
  - reflexivity.
Defined.

(** ** The theorems on the small deployment *)

Lemma first_login_creates_one_record_witness :
  exists d,
    verify_token Demo.regex_search Demo.utcnow Demo.user_claims [Demo.root]
    = ([Demo.root; d],
       inr (login_response true (VStr "+911111111111") (VStr "") (VBool true)
              false))
    /\ fields d !! "isActive" = Some (VBool true)
    /\ length (fst (verify_token Demo.regex_search (fun _ => 1700000000500%Z)
                      Demo.user_claims [Demo.root; d])) = 2%nat.
Proof.
  destruct (first_login_creates_one_record Demo.regex_search Demo.utcnow
              Demo.user_claims [Demo.root])
    as (d & Hlogin & _ & _ & Hactive & _ & _ & _ & _ & _ & Hsecond).
  - vm_compute. reflexivity.
  - exists d. split; [exact Hlogin|]. split; [exact Hactive|].
    destruct (Hsecond (fun _ => 1700000000500%Z) Demo.user_claims eq_refl)
      as (d' & Hfst & _).
    simpl app in Hfst. rewrite Hfst. reflexivity.
Defined.

Lemma login_overwrites_two_fields_witness :
  exists before after d',
    Demo.users = before ++ Demo.asha :: after
    /\ no_match Demo.regex_search
         (by_phoneNumber (Py.get Demo.user_claims "phone_number")) before
    /\ fst (verify_token Demo.regex_search Demo.utcnow Demo.user_claims
              Demo.users) = before ++ d' :: after
    /\ fields d' !! "lastLogin" = Some (VDate (Demo.utcnow 0%nat))
    /\ fields d' !! "isSuperAdmin"
       = Some (VBool (is_super_admin (Py.get Demo.user_claims "phone_number")))
    /\ _id d' = _id Demo.asha
    /\ forall k, k <> "lastLogin" -> k <> "isSuperAdmin" ->
         fields d' !! k = fields Demo.asha !! k.
Proof.
  apply (login_overwrites_two_fields Demo.regex_search Demo.utcnow
           Demo.user_claims Demo.users Demo.asha).
  vm_compute. reflexivity.
Defined.

Lemma deactivated_login_is_recorded_witness :
  exists users',
    verify_token Demo.regex_search Demo.utcnow Demo.user_claims
      Demo.users_deactivated = (users', inl access_denied)
    /\ users' <> Demo.users_deactivated.
Proof.
  destruct (deactivated_login_is_recorded Demo.regex_search Demo.utcnow
              Demo.user_claims Demo.users_deactivated Demo.asha_deactivated)
    as (before & after & d' & _ & _ & Hlogin & _ & _ & Hchanged).
  - vm_compute. reflexivity.
  - vm_compute. reflexivity.
  - compute_done.
  - exists (before ++ d' :: after). split; [exact Hlogin|].
    rewrite Hlogin in Hchanged. apply Hchanged. compute_done.
Defined.

Lemma update_user_by_admin_witness :
  update_user Demo.regex_search Demo.utcnow "+919899273448"
    {| update_name := "x"; update_isActive := true |}
    Demo.admin_claims Demo.users
  = (Demo.users, inl invalid_operation)
  /\ update_user Demo.regex_search Demo.utcnow "+912222222222"
       {| update_name := "x"; update_isActive := true |}
       Demo.admin_claims Demo.users
     = (Demo.users, inl not_found)
  /\ exists users',
       update_user Demo.regex_search Demo.utcnow "+911111111111"
         {| update_name := "Asha K"; update_isActive := false |}
         Demo.admin_claims Demo.users
       = (users', inr (message_response true "User updated successfully")).
Proof.
  split; [|split].
  - apply (update_user_by_admin Demo.regex_search Demo.utcnow
             "+919899273448" {| update_name := "x"; update_isActive := true |}
             Demo.admin_claims Demo.users); compute_done.
  - apply (update_user_by_admin Demo.regex_search Demo.utcnow
             "+912222222222" {| update_name := "x"; update_isActive := true |}
             Demo.admin_claims Demo.users);
      [compute_done | compute_done | vm_compute; reflexivity].
  - destruct (update_user_by_admin Demo.regex_search Demo.utcnow
                "+911111111111"
                {| update_name := "Asha K"; update_isActive := false |}
                Demo.admin_claims Demo.users) as (_ & _ & Hupdate).
    + compute_done.
    + destruct (Hupdate ltac:(compute_done) Demo.asha)
        as (before & after & d' & _ & _ & Hcall & _).
      * vm_compute. reflexivity.
      * exists (before ++ d' :: after). exact Hcall.
Defined.



Lemma deactivated_gate_on_login_witness :
  snd (verify_token Demo.regex_search Demo.utcnow Demo.user_claims
         Demo.users_deactivated) = inl access_denied
  /\ snd (verify_token Demo.regex_search Demo.utcnow Demo.admin_claims
            Demo.users) =
       inr (login_response true (VStr "+919899273448") (VStr "Root")
              (VBool false) true).
Proof.
  split.
  - apply (deactivated_gate_on_login Demo.regex_search Demo.regex_valid
             Demo.utcnow Demo.user_claims Demo.users_deactivated
             Demo.asha_deactivated);
      [vm_compute; reflexivity | vm_compute; reflexivity | compute_done].
  - apply (deactivated_gate_on_login Demo.regex_search Demo.regex_valid
             Demo.utcnow Demo.admin_claims Demo.users Demo.root);
      [vm_compute; reflexivity | vm_compute; reflexivity | compute_done].
Defined.

(** C1 as the specification states it fails on [get_profile]: the record
    is deactivated, its phone number is outside the allow-list, and the
    route answers with the profile. *)
Lemma deactivated_user_reads_profile :
  find_one Demo.regex_search
    (by_phoneNumber (Py.get Demo.user_claims "phone_number"))
    Demo.users_deactivated = Some Demo.asha_deactivated
  /\ fields Demo.asha_deactivated !! "isActive" = Some (VBool false)
  /\ (Py.get Demo.user_claims "phone_number" ∉ SUPER_ADMINS)
  /\ Demo.handle (Some "Bearer user-token") Demo.utcnow GET_users_profile
       Demo.users_deactivated
     = (Demo.users_deactivated,
        inr (profile_response "000000000000000000000001"
               (fields Demo.asha_deactivated)))
  /\ snd (Demo.handle (Some "Bearer user-token") Demo.utcnow GET_users_profile
            Demo.users_deactivated) <> inl access_denied.
Proof.
  repeat split; try (vm_compute; reflexivity); try compute_done.
  vm_compute. discriminate.
Qed.

(** C6 on the code: a record matches the caller's phone number and
    already holds the submitted [name] and the [updatedAt] of this
    request; [update_profile] tests [modified_count] and answers 404. *)
Theorem update_profile_unmodified_not_found :
  find_one Demo.regex_search
    (by_phoneNumber (Py.get Demo.user_claims "phone_number")) Demo.users
  = Some Demo.asha
  /\ Demo.handle (Some "Bearer user-token") Demo.utcnow
       (PUT_users_profile {| profile_name := "Asha" |}) Demo.users
     = (Demo.users, inl not_found)
  /\ update_user Demo.regex_search Demo.utcnow "+911111111111"
       {| update_name := "Asha"; update_isActive := true |}
       Demo.admin_claims Demo.users
     = (Demo.users,
        inr (message_response true "User updated successfully")).
Proof.
  repeat split; vm_compute; reflexivity.
Qed.

(** ** Every request: what it may write *)

Section RequestFacts.

Variable verify_id_token : string -> string + dict.
Variable str_HTTPException : HTTPException -> string.
Variable regex_search : string -> string -> bool.
Variable regex_valid : string -> bool.

Local Abbreviation get_current_user :=
  (get_current_user verify_id_token str_HTTPException).
Local Abbreviation handle :=
  (handle verify_id_token str_HTTPException regex_search regex_valid).
Local Abbreviation find_one := (find_one regex_search).
Local Abbreviation no_match := (no_match regex_search).
Local Abbreviation change := (change regex_search).
Local Abbreviation verify_token := (verify_token regex_search).
Local Abbreviation get_profile := (get_profile regex_search).
Local Abbreviation update_profile := (update_profile regex_search).
Local Abbreviation update_user := (update_user regex_search).
Local Abbreviation search_users := (search_users regex_search regex_valid).

Lemma matches_by_phoneNumber p d :
  matches regex_search (by_phoneNumber p) d = true <-> phone_of d = p.
Proof.
  unfold phone_of, Py.get. simpl. rewrite andb_true_r.
  apply bool_decide_eq_true.
Qed.

Lemma no_match_by_phoneNumber p c :
  no_match (by_phoneNumber p) c <-> Forall (fun d => phone_of d <> p) c.
Proof.
  apply Forall_iff. intros d.
  rewrite <- matches_by_phoneNumber.
  destruct (matches regex_search (by_phoneNumber p) d); split; congruence.
Qed.

(** The first record with a given phone number, in a decomposition of
    the collection. *)
Lemma find_one_by_phoneNumber p users d :
  find_one (by_phoneNumber p) users = Some d ->
  exists before after,
    users = before ++ d :: after
    /\ no_match (by_phoneNumber p) before /\ phone_of d = p.
Proof.
  intros Hfound.
  destruct (find_one_Some _ _ _ _ Hfound) as (b & a & -> & Hb & Hd).
  exists b, a. by rewrite <- matches_by_phoneNumber.
Qed.

Lemma verify_token_change utcnow current_user users :
  change utcnow current_user POST_auth_verify_token users
    (fst (verify_token utcnow current_user users)).
Proof.
  destruct (find_one (by_phoneNumber (Py.get current_user "phone_number"))
              users) as [d|] eqn:Hfound.
  - destruct (find_one_by_phoneNumber _ _ _ Hfound) as (b & a & -> & Hb & Hd).
    rewrite verify_token_existing
      by (done || by apply matches_by_phoneNumber).
    by constructor.
  - apply find_one_None in Hfound. rewrite verify_token_absent by done.
    by constructor.
Qed.

Lemma update_profile_change utcnow profile current_user users :
  fst (update_profile utcnow profile current_user users) = users
  \/ change utcnow current_user (PUT_users_profile profile) users
       (fst (update_profile utcnow profile current_user users)).
Proof.
  destruct (find_one (by_phoneNumber (Py.get current_user "phone_number"))
              users) as [d|] eqn:Hfound.
  - destruct (find_one_by_phoneNumber _ _ _ Hfound) as (b & a & -> & Hb & Hd).
    rewrite update_profile_existing
      by (done || by apply matches_by_phoneNumber).
    right. by constructor.
  - apply find_one_None in Hfound. rewrite update_profile_absent by done.
    by left.
Qed.

Lemma update_user_change utcnow user_phone update current_user users :
  fst (update_user utcnow user_phone update current_user users) = users
  \/ change utcnow current_user (PUT_admin_users user_phone update) users
       (fst (update_user utcnow user_phone update current_user users)).
Proof.
  unfold server.update_user.
  destruct (is_super_admin (Py.get current_user "phone_number")) eqn:Hadmin;
    [|by left].
  destruct (Py.contains (VStr user_phone) SUPER_ADMINS) eqn:Htarget;
    [by left|].
  cbn [negb].
  apply contains_elem_of in Hadmin. apply contains_not_elem_of in Htarget.
  destruct (find_one (by_phoneNumber (VStr user_phone)) users)
    as [d|] eqn:Hfound.
  - destruct (find_one_by_phoneNumber _ _ _ Hfound) as (b & a & -> & Hb & Hd).
    rewrite (update_one_first _ _ _ _ _ _ Hb)
      by (by apply matches_by_phoneNumber).
    right. simpl. by constructor.
  - apply find_one_None in Hfound.
    rewrite (update_one_no_match _ _ _ _ Hfound). by left.
Qed.

(** Whatever the request, the store is left as it was or changed in one
    of the four ways of [change], and then the credential was accepted. *)
Lemma handle_change authorization utcnow req users :
  fst (handle authorization utcnow req users) = users
  \/ exists current_user,
       get_current_user authorization = inr current_user
       /\ change utcnow current_user req users
            (fst (handle authorization utcnow req users)).
Proof.
  destruct (get_current_user authorization) as [e|cu] eqn:Hcu.
  - left. unfold server.handle. rewrite Hcu. by destruct req.
  - rewrite (handle_authenticated _ _ _ _ _ _ _ _ _ Hcu).
    destruct req as [| | |profile| |query|user_phone update].
    + by left.
    + right. exists cu. split; [done|]. apply verify_token_change.
    + left. unfold server.get_profile. by destruct (Mongo.find_one _ _ _).
    + destruct (update_profile_change utcnow profile cu users) as [->|Hch];
        [by left | right; eauto].
    + left. unfold server.get_all_users. by destruct (negb _).
    + left. unfold server.search_users. destruct (negb _); [done|].
      by destruct (negb _).
    + destruct (update_user_change utcnow user_phone update cu users)
        as [->|Hch]; [by left | right; eauto].
Qed.

(** *** What a write keeps *)

Lemma identity_set_fields upd d :
  upd !! "phoneNumber" = None -> upd !! "firebaseUid" = None ->
  upd !! "createdAt" = None ->
  identity (set_fields upd d) = identity d.
Proof.
  intros H1 H2 H3. unfold identity. simpl.
  by rewrite !lookup_union_r by done.
Qed.

Lemma phone_of_set_fields upd d :
  upd !! "phoneNumber" = None -> phone_of (set_fields upd d) = phone_of d.
Proof.
  intros H1. unfold phone_of, Py.get. simpl. by rewrite lookup_union_r.
Qed.

Lemma map_replace_middle {B} (f : document -> B) before d d' after :
  f d' = f d ->
  map f (before ++ d' :: after) = map f (before ++ d :: after).
Proof. intros Hf. rewrite !map_app. simpl. by rewrite Hf. Qed.

(** The [$set]s of the handlers name none of the identifying fields. *)
Lemma change_set_fields utcnow current_user req users users' :
  change utcnow current_user req users users' ->
  (exists d, users' = users ++ [d]
             /\ _id d = fresh_id users
             /\ phone_of d = Py.get current_user "phone_number"
             /\ no_match
                  (by_phoneNumber (Py.get current_user "phone_number")) users)
  \/ (exists before d after upd,
        users = before ++ d :: after
        /\ users' = before ++ set_fields upd d :: after
        /\ upd !! "phoneNumber" = None
        /\ upd !! "firebaseUid" = None
        /\ upd !! "createdAt" = None).
Proof.
  intros [us Hnone | b d a Hb Hd | profile b d a Hb Hd
         | user_phone update b d a Hadmin Htarget Hb Hd].
  - left. eexists. split; [reflexivity|]. split; [reflexivity|].
    split; [|done].
    unfold phone_of, new_user, Py.get at 1. by simplify_map_eq.
  - right. exists b, d, a, (login_update utcnow (Py.get current_user "phone_number")).
    unfold login_update. repeat split; by simplify_map_eq.
  - right. exists b, d, a, (profile_update utcnow profile).
    unfold profile_update. repeat split; by simplify_map_eq.
  - right. exists b, d, a, (admin_update utcnow update).
    unfold admin_update. repeat split; by simplify_map_eq.
Qed.

Lemma lookup_replace_middle (before after : collection) d d' i x :
  (before ++ d :: after) !! i = Some x ->
  (x = d /\ (before ++ d' :: after) !! i = Some d')
  \/ (before ++ d' :: after) !! i = Some x.
Proof.
  revert i. induction before as [|y b IH]; intros [|i]; simpl.
  - intros [= ->]. by left.
  - intros Hi. by right.
  - intros Hi. by right.
  - apply IH.
Qed.

(** X1: the routes that read (health, profile, listing, search) leave
    the store as it was, whatever the credential. *)
Theorem read_only_routes_keep_store authorization utcnow req users :
  read_only req = true ->
  fst (handle authorization utcnow req users) = users.
Proof.
  intros Hread.
  destruct (handle_change authorization utcnow req users)
    as [Hsame | (cu & _ & Hch)]; [done|].
  destruct Hch; discriminate.
Qed.

(** X2: no request removes or reorders records, and none changes the
    [_id], [phoneNumber], [firebaseUid] or [createdAt] of a stored
    record: the identities before are an initial segment of the
    identities after. *)
Theorem records_keep_identity authorization utcnow req users :
  map identity users
    `prefix_of` map identity (fst (handle authorization utcnow req users)).
Proof.
  destruct (handle_change authorization utcnow req users)
    as [-> | (cu & _ & Hch)]; [done|].
  destruct (change_set_fields _ _ _ _ _ Hch)
    as [(d & -> & _) | (b & d & a & upd & -> & -> & H1 & H2 & H3)].
  - rewrite map_app. by apply prefix_app_r.
  - by rewrite (map_replace_middle identity b d _ a
                  (identity_set_fields upd d H1 H2 H3)).
Qed.

(** X3: a request adds at most one record, and only a login for a phone
    number that has no record adds one. *)
Theorem at_most_one_record_added authorization utcnow req users :
  length (fst (handle authorization utcnow req users)) = length users
  \/ (req = POST_auth_verify_token
      /\ exists current_user,
           get_current_user authorization = inr current_user
           /\ find_one (by_phoneNumber (Py.get current_user "phone_number"))
                users = None
           /\ length (fst (handle authorization utcnow req users))
              = S (length users)).
Proof.
  destruct (handle_change authorization utcnow req users)
    as [-> | (cu & Hcu & Hch)]; [by left|].
  destruct Hch as [us Hnone | b d a Hb Hd | profile b d a Hb Hd
                  | user_phone update b d a Hadmin Htarget Hb Hd];
    try (left; rewrite !length_app; reflexivity).
  right. split; [done|]. exists cu. split; [done|].
  split; [by apply find_one_None|].
  rewrite length_app. simpl. lia.
Qed.

(** X4: if no two records share an [_id], no request makes two records
    share one. *)
Theorem ids_stay_unique authorization utcnow req users :
  NoDup (map _id users) ->
  NoDup (map _id (fst (handle authorization utcnow req users))).
Proof.
  intros Hnodup.
  destruct (handle_change authorization utcnow req users)
    as [-> | (cu & _ & Hch)]; [done|].
  destruct (change_set_fields _ _ _ _ _ Hch)
    as [(d & -> & Hid & _) | (b & d & a & upd & -> & -> & _)].
  - rewrite map_app. simpl. apply NoDup_app. split; [done|].
    split; [|apply NoDup_singleton].
    intros oid Hin Hnew. apply list_elem_of_singleton in Hnew. subst oid.
    apply list_elem_of_fmap in Hin as (x & Hx & Hin). rewrite Hid in Hx.
    pose proof (fresh_id_bound users) as Hbound.
    rewrite Forall_forall in Hbound. apply Hbound in Hin. lia.
  - by rewrite (map_replace_middle _id b d (set_fields upd d) a eq_refl).
Qed.

(** X5: if no two records share a phone number, no request makes two
    records share one. *)
Theorem phone_numbers_stay_unique authorization utcnow req users :
  NoDup (map phone_of users) ->
  NoDup (map phone_of (fst (handle authorization utcnow req users))).
Proof.
  intros Hnodup.
  destruct (handle_change authorization utcnow req users)
    as [-> | (cu & _ & Hch)]; [done|].
  destruct (change_set_fields _ _ _ _ _ Hch)
    as [(d & -> & _ & Hphone & Hnone)
       | (b & d & a & upd & -> & -> & H1 & _)].
  - rewrite map_app. simpl. apply NoDup_app. split; [done|].
    split; [|apply NoDup_singleton].
    intros p Hin Hnew. apply list_elem_of_singleton in Hnew. subst p.
    apply list_elem_of_fmap in Hin as (x & Hx & Hin).
    apply no_match_by_phoneNumber in Hnone.
    rewrite Forall_forall in Hnone. apply (Hnone x Hin). congruence.
  - by rewrite (map_replace_middle phone_of b d _ a
                  (phone_of_set_fields upd d H1)).
Qed.

(** X6: a request changes a stored record only when its credential is
    accepted and either the record carries the caller's own phone number,
    or the caller is allow-listed and uses the admin update on a target
    outside the allow-list. *)
Theorem writes_are_authorized authorization utcnow req users i d :
  users !! i = Some d ->
  fst (handle authorization utcnow req users) !! i <> Some d ->
  exists current_user,
    get_current_user authorization = inr current_user
    /\ (phone_of d = Py.get current_user "phone_number"
        \/ (Py.get current_user "phone_number" ∈ SUPER_ADMINS
            /\ exists user_phone update,
                 req = PUT_admin_users user_phone update
                 /\ phone_of d = VStr user_phone
                 /\ VStr user_phone ∉ SUPER_ADMINS)).
Proof.
  intros Hi Hchanged.
  destruct (handle_change authorization utcnow req users)
    as [Hsame | (cu & Hcu & Hch)]; [by rewrite Hsame in Hchanged|].
  exists cu. split; [done|].
  destruct Hch as [us Hnone | b d0 a Hb Hd | profile b d0 a Hb Hd
                  | user_phone update b d0 a Hadmin Htarget Hb Hd].
  - exfalso. apply Hchanged. rewrite lookup_app_l; [done|].
    by apply lookup_lt_Some in Hi.
  - destruct (lookup_replace_middle b a d0
                (set_fields (login_update utcnow
                               (Py.get cu "phone_number")) d0) i d Hi)
      as [[-> _] | Hkeep]; [by left | done].
  - destruct (lookup_replace_middle b a d0
                (set_fields (profile_update utcnow profile) d0) i d Hi)
      as [[-> _] | Hkeep]; [by left | done].
  - destruct (lookup_replace_middle b a d0
                (set_fields (admin_update utcnow update) d0) i d Hi)
      as [[-> _] | Hkeep]; [|done].
    right. split; [done|]. by exists user_phone, update.
Qed.

(** X7: the [isActive] of a stored record changes only through the admin
    update of an allow-listed caller on that record's phone number: a
    deactivated user cannot reactivate itself. *)
Theorem isActive_changes_by_admin_only authorization utcnow req users i d d' :
  users !! i = Some d ->
  fst (handle authorization utcnow req users) !! i = Some d' ->
  fields d' !! "isActive" <> fields d !! "isActive" ->
  exists current_user user_phone update,
    get_current_user authorization = inr current_user
    /\ Py.get current_user "phone_number" ∈ SUPER_ADMINS
    /\ req = PUT_admin_users user_phone update
    /\ phone_of d = VStr user_phone
    /\ (VStr user_phone ∉ SUPER_ADMINS)
    /\ fields d' !! "isActive" = Some (VBool (update_isActive update)).
Proof.
  intros Hi Hi' Hdiff.
  destruct (handle_change authorization utcnow req users)
    as [Hsame | (cu & Hcu & Hch)].
  { rewrite Hsame in Hi'. congruence. }
  destruct Hch as [us Hnone | b d0 a Hb Hd | profile b d0 a Hb Hd
                  | user_phone update b d0 a Hadmin Htarget Hb Hd].
  - exfalso. rewrite lookup_app_l in Hi' by (by apply lookup_lt_Some in Hi).
    congruence.
  - exfalso.
    destruct (lookup_replace_middle b a d0
                (set_fields (login_update utcnow
                               (Py.get cu "phone_number")) d0) i d Hi)
      as [[-> Hnew] | Hkeep]; [|congruence].
    rewrite Hnew in Hi'. injection Hi' as <-. apply Hdiff.
    unfold login_update. simpl. rewrite lookup_union_r; [done|].
    by simplify_map_eq.
  - exfalso.
    destruct (lookup_replace_middle b a d0
                (set_fields (profile_update utcnow profile) d0) i d Hi)
      as [[-> Hnew] | Hkeep]; [|congruence].
    rewrite Hnew in Hi'. injection Hi' as <-. apply Hdiff.
    unfold profile_update. simpl. rewrite lookup_union_r; [done|].
    by simplify_map_eq.
  - destruct (lookup_replace_middle b a d0
                (set_fields (admin_update utcnow update) d0) i d Hi)
      as [[-> Hnew] | Hkeep]; [|congruence].
    rewrite Hnew in Hi'. injection Hi' as <-.
    exists cu, user_phone, update. repeat split; try done.
    unfold admin_update. simpl. by simplify_map_eq.
Qed.

(** *** The credential *)

Lemma get_current_user_inr authorization decoded_token :
  get_current_user authorization = inr decoded_token ->
  exists header,
    authorization = Some header
    /\ Py.startswith header "Bearer " = true
    /\ verify_id_token (Py.remove_all header "Bearer ") = inr decoded_token
    /\ Py.truthy (Py.get decoded_token "phone_number") = true.
Proof.
  unfold server.get_current_user, verify_firebase_token.
  destruct authorization as [header|]; [|discriminate].
  destruct (Py.truthy (VStr header)); [|discriminate].
  destruct (Py.startswith header "Bearer ") eqn:Hpre; [|discriminate].
  cbn [negb orb].
  destruct (verify_id_token (Py.remove_all header "Bearer ")) as [e|tok] eqn:Htok;
    [discriminate|].
  destruct (Py.truthy (Py.get tok "phone_number")) eqn:Hphone;
    [|discriminate].
  cbn [negb]. intros [= <-]. by exists header.
Qed.

Lemma get_current_user_inl authorization e :
  get_current_user authorization = inl e -> status_code e = 401%Z.
Proof.
  unfold server.get_current_user, verify_firebase_token.
  destruct authorization as [header|]; [|by intros [= <-]].
  destruct (negb _ || negb _); [by intros [= <-]|].
  destruct (verify_id_token _) as [msg|tok]; [by intros [= <-]|].
  destruct (negb _); [by intros [= <-] | discriminate].
Qed.

Lemma truthy_not_null v : Py.truthy v = true -> v <> VNull.
Proof. by destruct v. Qed.

Lemma phone_of_lookup d p :
  phone_of d = p -> p <> VNull -> fields d !! "phoneNumber" = Some p.
Proof.
  unfold phone_of, Py.get. destruct (fields d !! "phoneNumber"); simpl;
    congruence.
Qed.

(** X8: [get_current_user] returns a token exactly when the header
    begins with ["Bearer "], the authority accepts the header with every
    ["Bearer "] taken out, and the token it decodes carries a
    phone-number claim that is true as a Python value (so neither [None]
    nor the empty string); it then returns that decoded token. *)
Theorem get_current_user_accepts authorization decoded_token :
  get_current_user authorization = inr decoded_token
  <-> exists header,
        authorization = Some header
        /\ Py.startswith header "Bearer " = true
        /\ verify_id_token (Py.remove_all header "Bearer ")
           = inr decoded_token
        /\ Py.truthy (Py.get decoded_token "phone_number") = true
        /\ Py.get decoded_token "phone_number" <> VNull
        /\ Py.get decoded_token "phone_number" <> VStr "".
Proof.
  split.
  - intros Hcu.
    destruct (get_current_user_inr _ _ Hcu) as (h & -> & Hpre & Htok & Hp).
    exists h. repeat split; try done.
    + by apply truthy_not_null.
    + intros Heq. by rewrite Heq in Hp.
  - intros (h & -> & Hpre & Htok & Hp & _).
    unfold server.get_current_user, verify_firebase_token.
    rewrite Hpre, (startswith_nonempty h "Bearer ") by done.
    cbn [negb orb]. by rewrite Htok, Hp.
Qed.

(** X9: the errors of a request are closed under six kinds.  A refused
    credential gives 401; after an accepted one the error is
    AccessDenied (from the login only), Forbidden or InvalidOperation
    (from the admin routes only), NotFound (never from the login), or
    the 500 of the search of an allow-listed caller whose pattern the
    store does not compile: no handler fails in any other way. *)
Theorem errors_are_classified authorization utcnow req users e :
  snd (handle authorization utcnow req users) = inl e ->
  (get_current_user authorization = inl e /\ status_code e = 401%Z)
  \/ (exists current_user,
        get_current_user authorization = inr current_user
        /\ (e = access_denied /\ req = POST_auth_verify_token
            \/ e = forbidden /\ admin_request req = true
            \/ e = not_found /\ req <> POST_auth_verify_token
            \/ e = invalid_operation /\ admin_request req = true
            \/ e = internal_server_error
               /\ Py.get current_user "phone_number" ∈ SUPER_ADMINS
               /\ exists query,
                    req = GET_admin_users_search query
                    /\ regex_valid query = false)).
Proof.
  destruct (get_current_user authorization) as [e'|cu] eqn:Hcu.
  - unfold server.handle. rewrite Hcu.
    destruct req; simpl; try discriminate;
      intros [= <-]; left; (split; [done|]);
      by apply (get_current_user_inl authorization).
  - rewrite (handle_authenticated _ _ _ _ _ _ _ _ _ Hcu).
    intros He. right. exists cu. split; [done|].
    destruct (get_current_user_inr _ _ Hcu) as (_ & _ & _ & _ & Hp).
    apply truthy_not_null in Hp.
    destruct req as [| | |profile| |query|user_phone update].
    + discriminate.
    + destruct (find_one (by_phoneNumber (Py.get cu "phone_number")) users)
        as [d|] eqn:Hfound.
      * destruct (find_one_by_phoneNumber _ _ _ Hfound)
          as (b & a & -> & Hb & Hd).
        rewrite verify_token_existing in He
          by (done || by apply matches_by_phoneNumber).
        simpl in He. rewrite (phone_of_lookup _ _ Hd Hp) in He.
        destruct (negb _ && negb _); [|discriminate].
        injection He as <-. by left.
      * apply find_one_None in Hfound.
        rewrite verify_token_absent in He by done. discriminate.
    + unfold server.get_profile in He.
      destruct (Mongo.find_one _ _ _); [discriminate|].
      injection He as <-. right. right. by left.
    + unfold server.update_profile in He.
      destruct (Mongo.update_one _ _ _ _) as [us r].
      destruct (Nat.eqb _ _); [|discriminate].
      injection He as <-. right. right. by left.
    + unfold server.get_all_users in He.
      destruct (negb _); [|discriminate].
      injection He as <-. right. by left.
    + unfold server.search_users, well_formed in He.
      destruct (is_super_admin (Py.get cu "phone_number")) eqn:Hadmin;
        cbn [negb] in He; [|injection He as <-; right; by left].
      cbn [forallb compiles] in He.
      destruct (regex_valid query) eqn:Hvalid; [discriminate|].
      injection He as <-. do 4 right.
      split; [done|]. split; [by apply contains_elem_of|]. by exists query.
    + unfold server.update_user in He.
      destruct (negb _); [injection He as <-; right; by left|].
      destruct (Py.contains _ _);
        [injection He as <-; right; right; by right; left|].
      destruct (Mongo.update_one _ _ _ _) as [us r].
      destruct (Nat.eqb _ _); [|discriminate].
      injection He as <-. right. right. by left.
Qed.

(** X10: for an allow-listed caller the login succeeds on every store,
    whether its record is absent, present, or deactivated, and the
    response says [isSuperAdmin]. *)
Theorem admin_login_always_succeeds utcnow current_user users :
  Py.get current_user "phone_number" ∈ SUPER_ADMINS ->
  exists name isActive,
    snd (verify_token utcnow current_user users)
    = inr (login_response true (Py.get current_user "phone_number")
             name isActive true).
Proof.
  intros Hin.
  assert (Py.get current_user "phone_number" <> VNull) as Hp.
  { intros Heq. rewrite Heq in Hin. revert Hin. compute_done. }
  apply contains_elem_of in Hin.
  fold (is_super_admin (Py.get current_user "phone_number")) in Hin.
  destruct (find_one (by_phoneNumber (Py.get current_user "phone_number"))
              users) as [d|] eqn:Hfound.
  - destruct (find_one_by_phoneNumber _ _ _ Hfound) as (b & a & -> & Hb & Hd).
    rewrite verify_token_existing
      by (done || by apply matches_by_phoneNumber).
    simpl. rewrite (phone_of_lookup _ _ Hd Hp), Hin, andb_false_r. eauto.
  - apply find_one_None in Hfound. rewrite verify_token_absent by done.
    simpl. rewrite Hin. eauto.
Qed.

(** *** How the routes compose *)

(** X11: after a login with an accepted credential, whether it was
    answered with success or with AccessDenied, the caller's record
    exists: the profile route finds it and returns it, with the caller's
    phone number. *)
Theorem login_ensures_profile authorization current_user utcnow utcnow' users :
  get_current_user authorization = inr current_user ->
  exists d,
    handle authorization utcnow' GET_users_profile
      (fst (handle authorization utcnow POST_auth_verify_token users))
    = (fst (handle authorization utcnow POST_auth_verify_token users),
       inr (profile_response (str_ObjectId (_id d)) (fields d)))
    /\ fields d !! "phoneNumber"
       = Some (Py.get current_user "phone_number").
Proof.
  intros Hcu.
  destruct (get_current_user_inr _ _ Hcu) as (_ & _ & _ & _ & Hp).
  apply truthy_not_null in Hp.
  rewrite !(handle_authenticated _ _ _ _ _ _ _ _ _ Hcu).
  destruct (find_one (by_phoneNumber (Py.get current_user "phone_number"))
              users) as [d|] eqn:Hfound.
  - destruct (find_one_by_phoneNumber _ _ _ Hfound) as (b & a & -> & Hb & Hd).
    rewrite verify_token_existing
      by (done || by apply matches_by_phoneNumber).
    cbn [fst].
    assert (phone_of (set_fields (login_update utcnow
                                    (Py.get current_user "phone_number")) d)
            = Py.get current_user "phone_number") as Hd'.
    { rewrite phone_of_set_fields; [done|].
      unfold login_update. by simplify_map_eq. }
    eexists. split.
    + apply get_profile_existing. apply find_one_first; [done|].
      by apply matches_by_phoneNumber.
    + by apply phone_of_lookup.
  - apply find_one_None in Hfound.
    rewrite verify_token_absent by done. cbn [fst].
    eexists. split.
    + apply get_profile_existing. apply find_one_first; [done|].
      apply matches_new_user.
    + unfold new_user. by simplify_map_eq.
Qed.

(** X12: what [update_profile] does to the store when a record matches:
    it sets [name] and [updatedAt] on the first matching record and
    leaves its [_id], its other fields and the other records; it answers
    success exactly when that record was changed by it. *)
Theorem update_profile_effect utcnow profile current_user users d :
  find_one (by_phoneNumber (Py.get current_user "phone_number")) users
    = Some d ->
  exists before after d',
    users = before ++ d :: after
    /\ no_match (by_phoneNumber (Py.get current_user "phone_number")) before
    /\ fst (update_profile utcnow profile current_user users)
       = before ++ d' :: after
    /\ fields d' !! "name" = Some (VStr (profile_name profile))
    /\ fields d' !! "updatedAt" = Some (VDate (utcnow 0%nat))
    /\ _id d' = _id d
    /\ (forall k, k <> "name" -> k <> "updatedAt" ->
          fields d' !! k = fields d !! k)
    /\ (snd (update_profile utcnow profile current_user users)
        = inr (message_response true "Profile updated successfully")
        <-> d' <> d).
Proof.
  intros Hfound.
  destruct (find_one_Some _ _ _ _ Hfound) as (b & a & -> & Hb & Hd).
  exists b, a, (set_fields (profile_update utcnow profile) d).
  rewrite update_profile_existing by done.
  unfold profile_update. simpl.
  repeat (split; [by simplify_map_eq|]).
  split.
  - intros k Hk1 Hk2. rewrite lookup_union_r; [done|]. by simplify_map_eq.
  - case_bool_decide as Hsame; split; done.
Qed.

(** X13: a successful [update_profile] is read back by [get_profile]:
    the profile returned next carries the submitted name and the
    [updatedAt] of the update. *)
Theorem profile_update_read_back utcnow profile current_user users :
  snd (update_profile utcnow profile current_user users)
    = inr (message_response true "Profile updated successfully") ->
  exists d',
    get_profile current_user
      (fst (update_profile utcnow profile current_user users))
    = (fst (update_profile utcnow profile current_user users),
       inr (profile_response (str_ObjectId (_id d')) (fields d')))
    /\ fields d' !! "name" = Some (VStr (profile_name profile))
    /\ fields d' !! "updatedAt" = Some (VDate (utcnow 0%nat)).
Proof.
  intros Hok.
  destruct (find_one (by_phoneNumber (Py.get current_user "phone_number"))
              users) as [d|] eqn:Hfound.
  - destruct (find_one_Some _ _ _ _ Hfound) as (b & a & -> & Hb & Hd).
    rewrite update_profile_existing by done. cbn [fst].
    exists (set_fields (profile_update utcnow profile) d). split.
    + apply get_profile_existing. apply find_one_first; [done|].
      unfold by_phoneNumber. rewrite matches_set_fields; [done|].
      unfold profile_update. by simplify_map_eq.
    + unfold profile_update. simpl. split; by simplify_map_eq.
  - apply find_one_None in Hfound.
    rewrite update_profile_absent in Hok by done. discriminate.
Qed.

(** X14: the admin update takes effect at the target's next login: after
    a successful [update_user], a login with the target's phone number is
    answered with AccessDenied when [isActive] was set to false, and with
    success, the new name and [isActive] true, when it was set to true. *)
Theorem admin_update_decides_next_login
    utcnow utcnow' user_phone update admin current_user users :
  snd (update_user utcnow user_phone update admin users)
    = inr (message_response true "User updated successfully") ->
  Py.get current_user "phone_number" = VStr user_phone ->
  snd (verify_token utcnow' current_user
         (fst (update_user utcnow user_phone update admin users)))
  = if update_isActive update
    then inr (login_response true (VStr user_phone)
                (VStr (update_name update)) (VBool true) false)
    else inl access_denied.
Proof.
  intros Hok Hphone. revert Hok. unfold server.update_user.
  destruct (negb (is_super_admin (Py.get admin "phone_number")));
    [discriminate|].
  destruct (Py.contains (VStr user_phone) SUPER_ADMINS) eqn:Htarget;
    [discriminate|].
  fold (is_super_admin (VStr user_phone)) in Htarget.
  destruct (find_one (by_phoneNumber (VStr user_phone)) users)
    as [d|] eqn:Hfound.
  - destruct (find_one_by_phoneNumber _ _ _ Hfound) as (b & a & -> & Hb & Hd).
    rewrite (update_one_first _ _ _ _ _ _ Hb)
      by (by apply matches_by_phoneNumber).
    fold (admin_update utcnow update). cbn [matched_count Nat.eqb fst snd].
    intros _.
    assert (admin_update utcnow update !! "phoneNumber" = None) as Hkey
      by (unfold admin_update; by simplify_map_eq).
    rewrite verify_token_existing; rewrite ?Hphone; [| done |].
    + cbn [snd]. unfold Py.get_default, set_fields. cbn [fields].
      rewrite (lookup_union_r _ _ "phoneNumber") by done.
      rewrite (phone_of_lookup _ _ Hd) by done.
      rewrite Htarget. unfold admin_update.
      destruct (update_isActive update); by simplify_map_eq.
    + apply matches_by_phoneNumber. by rewrite phone_of_set_fields.
  - apply find_one_None in Hfound.
    rewrite (update_one_no_match _ _ _ _ Hfound). discriminate.
Qed.

Lemma filter_sublist_impl (f g : document -> bool) (c : collection) :
  (forall d, f d = true -> g d = true) ->
  List.filter f c `sublist_of` List.filter g c.
Proof.
  intros Himpl. induction c as [|d c IH]; simpl; [constructor|].
  destruct (f d) eqn:Hf.
  - rewrite (Himpl d Hf). by constructor.
  - destruct (g d); [by constructor | done].
Qed.

(** X15: every record the search returns is among those the listing
    returns, in the same order. *)
Theorem search_within_listing query current_user users found listed :
  snd (search_users query current_user users)
    = inr (users_response found) ->
  snd (get_all_users regex_search current_user users)
    = inr (users_response listed) ->
  found `sublist_of` listed.
Proof.
  unfold server.search_users, server.get_all_users.
  destruct (negb (is_super_admin _)); [discriminate|].
  destruct (negb (well_formed _ _)); [discriminate|]. cbn [snd].
  intros [= <-] [= <-]. unfold find.
  apply (fmap_sublist without_id). apply filter_sublist_impl.
  intros d. cbn [matches forallb]. rewrite andb_true_iff. by intros [_ Hnin].
Qed.

(** *** What a response discloses *)

(** X16: a list of users is returned only to a caller whose credential
    was accepted and whose phone number is in the allow-list. *)
Theorem user_lists_for_admins_only authorization utcnow req users found :
  snd (handle authorization utcnow req users) = inr (users_response found) ->
  exists current_user,
    get_current_user authorization = inr current_user
    /\ Py.get current_user "phone_number" ∈ SUPER_ADMINS.
Proof.
  destruct (get_current_user authorization) as [e|cu] eqn:Hcu.
  - unfold server.handle. rewrite Hcu. by destruct req.
  - rewrite (handle_authenticated _ _ _ _ _ _ _ _ _ Hcu).
    intros Hresp. exists cu. split; [done|].
    destruct (is_super_admin (Py.get cu "phone_number")) eqn:Hadmin;
      [by apply contains_elem_of|].
    exfalso. destruct req as [| | |profile| |query|user_phone update].
    + discriminate.
    + revert Hresp. unfold server.verify_token.
      destruct (Mongo.find_one _ _ _) as [d|].
      * destruct (Mongo.update_one _ _ _ _) as [us r].
        destruct (Mongo.find_one _ _ _) as [d'|]; [|discriminate].
        destruct (negb _ && negb _); [discriminate|].
        by destruct (fields d' !! "phoneNumber").
      * destruct (insert_one _ _) as [us oid].
        destruct (Mongo.find_one _ _ _) as [d'|]; [|discriminate].
        destruct (negb _ && negb _); [discriminate|].
        by destruct (fields d' !! "phoneNumber").
    + revert Hresp. unfold server.get_profile.
      by destruct (Mongo.find_one _ _ _).
    + revert Hresp. unfold server.update_profile.
      destruct (Mongo.update_one _ _ _ _) as [us r].
      by destruct (Nat.eqb _ _).
    + revert Hresp. unfold server.get_all_users. by rewrite Hadmin.
    + revert Hresp. unfold server.search_users. by rewrite Hadmin.
    + revert Hresp. unfold server.update_user. by rewrite Hadmin.
Qed.

(** X17: the profile a request returns is always a stored record that
    carries the caller's own verified phone number. *)
Theorem profile_is_the_callers_own authorization utcnow req users id user :
  snd (handle authorization utcnow req users)
    = inr (profile_response id user) ->
  exists current_user d,
    get_current_user authorization = inr current_user
    /\ d ∈ users
    /\ user = fields d
    /\ id = str_ObjectId (_id d)
    /\ user !! "phoneNumber" = Some (Py.get current_user "phone_number").
Proof.
  destruct (get_current_user authorization) as [e|cu] eqn:Hcu.
  - unfold server.handle. rewrite Hcu. by destruct req.
  - rewrite (handle_authenticated _ _ _ _ _ _ _ _ _ Hcu).
    destruct (get_current_user_inr _ _ Hcu) as (_ & _ & _ & _ & Hp).
    apply truthy_not_null in Hp.
    intros Hresp. exists cu.
    destruct req as [| | |profile| |query|user_phone update].
    + discriminate.
    + exfalso. revert Hresp. unfold server.verify_token.
      destruct (Mongo.find_one _ _ _) as [d|].
      * destruct (Mongo.update_one _ _ _ _) as [us r].
        destruct (Mongo.find_one _ _ _) as [d'|]; [|discriminate].
        destruct (negb _ && negb _); [discriminate|].
        by destruct (fields d' !! "phoneNumber").
      * destruct (insert_one _ _) as [us oid].
        destruct (Mongo.find_one _ _ _) as [d'|]; [|discriminate].
        destruct (negb _ && negb _); [discriminate|].
        by destruct (fields d' !! "phoneNumber").
    + revert Hresp. unfold server.get_profile.
      destruct (find_one (by_phoneNumber (Py.get cu "phone_number")) users)
        as [d|] eqn:Hfound; [|discriminate].
      intros [= <- <-]. exists d.
      destruct (find_one_by_phoneNumber _ _ _ Hfound)
        as (b & a & -> & Hb & Hd).
      repeat split; try done.
      * apply elem_of_app. right. apply list_elem_of_here.
      * by apply phone_of_lookup.
    + exfalso. revert Hresp. unfold server.update_profile.
      destruct (Mongo.update_one _ _ _ _) as [us r].
      by destruct (Nat.eqb _ _).
    + exfalso. revert Hresp. unfold server.get_all_users.
      by destruct (negb _).
    + exfalso. revert Hresp. unfold server.search_users.
      destruct (negb (is_super_admin _)); [discriminate|].
      by destruct (negb (well_formed _ _)).
    + exfalso. revert Hresp. unfold server.update_user.
      destruct (negb _); [discriminate|].
      destruct (Py.contains _ _); [discriminate|].
      destruct (Mongo.update_one _ _ _ _) as [us r].
      by destruct (Nat.eqb _ _).
Qed.

(** *** The bearer header *)

Lemma prefix_append p s :
  String.prefix p s = true -> exists r, s = (p ++ r)%string.
Proof.
  revert s. induction p as [|c p IH]; intros [|c' s]; simpl;
    try discriminate.
  - intros _. by exists "".
  - intros _. by exists (String c' s).
  - destruct (ascii_dec c c') as [<-|]; [|discriminate].
    intros Hp. destruct (IH _ Hp) as (r & ->). by exists r.
Qed.

Lemma no_space_no_bearer s :
  no_space s = true -> String.prefix "Bearer " s = false.
Proof.
  intros Hs. destruct (String.prefix "Bearer " s) eqn:Hp; [|done].
  destruct (prefix_append _ _ Hp) as (r & ->). simpl in Hs.
  discriminate.
Qed.

Lemma remove_from_cons old c s :
  Py.remove_from old 0 (String c s)
  = if String.prefix old (String c s)
    then Py.remove_from old (String.length old - 1) s
    else String c (Py.remove_from old 0 s).
Proof. reflexivity. Qed.

Lemma remove_all_no_space s :
  no_space s = true -> Py.remove_all s "Bearer " = s.
Proof.
  unfold Py.remove_all. induction s as [|c s IH]; [done|].
  intros Hs. rewrite remove_from_cons, (no_space_no_bearer _ Hs).
  simpl in Hs. apply andb_true_iff in Hs as [_ Hs]. by rewrite IH.
Qed.

Lemma prefix_of_append p s : String.prefix p (p ++ s)%string = true.
Proof.
  induction p as [|c p IH]; simpl.
  - by destruct s.
  - by destruct (ascii_dec c c).
Qed.

Lemma remove_all_bearer s :
  Py.remove_all ("Bearer " ++ s)%string "Bearer "
  = Py.remove_all s "Bearer ".
Proof.
  unfold Py.remove_all.
  change ("Bearer " ++ s)%string with (String "B" ("earer " ++ s)%string).
  rewrite remove_from_cons.
  change (String "B" ("earer " ++ s)%string) with ("Bearer " ++ s)%string.
  by rewrite prefix_of_append.
Qed.

(** X18: for a header ["Bearer "] followed by a token that holds no
    space, the authority is asked about exactly that token, and the
    answer of [get_current_user] is read off the authority's: its
    failure as 401 "Invalid token: ...", a token without a true
    phone-number claim as 401, any other token returned as it is. *)
Theorem bearer_header_token token :
  no_space token = true ->
  get_current_user (Some ("Bearer " ++ token)%string)
  = match verify_id_token token with
    | inl e =>
        inl {| status_code := 401;
               detail := ("Invalid token: " ++ e)%string |}
    | inr decoded_token =>
        if Py.truthy (Py.get decoded_token "phone_number")
        then inr decoded_token
        else inl {| status_code := 401;
                    detail := str_HTTPException no_phone_number |}
    end.
Proof.
  intros Hs. unfold server.get_current_user, verify_firebase_token.
  rewrite remove_all_bearer, (remove_all_no_space _ Hs).
  unfold Py.startswith. rewrite prefix_of_append.
  change (Py.truthy (VStr ("Bearer " ++ token)%string)) with true.
  cbn [negb orb].
  destruct (verify_id_token token) as [e|tok]; [done|].
  by destruct (Py.truthy (Py.get tok "phone_number")).
Qed.

End RequestFacts.

(** ** The request theorems on the small deployment *)

Lemma read_only_routes_keep_store_witness :
  fst (Demo.handle None Demo.utcnow (GET_admin_users_search "+91") Demo.users)
  = Demo.users.
Proof.
  apply (read_only_routes_keep_store Demo.verify_id_token
           Demo.str_HTTPException Demo.regex_search Demo.regex_valid).
  reflexivity.
Defined.

Lemma ids_stay_unique_witness :
  NoDup (map _id (fst (Demo.handle (Some "Bearer user-token") Demo.utcnow
                         POST_auth_verify_token [Demo.root]))).
Proof.
  apply (ids_stay_unique Demo.verify_id_token Demo.str_HTTPException
           Demo.regex_search Demo.regex_valid).
  compute_done.
Defined.

Lemma phone_numbers_stay_unique_witness :
  NoDup (map phone_of (fst (Demo.handle (Some "Bearer user-token") Demo.utcnow
                              POST_auth_verify_token [Demo.root]))).
Proof.
  apply (phone_numbers_stay_unique Demo.verify_id_token
           Demo.str_HTTPException Demo.regex_search Demo.regex_valid).
  compute_done.
Defined.

Lemma writes_are_authorized_witness :
  exists current_user,
    server.get_current_user Demo.verify_id_token Demo.str_HTTPException
      (Some "Bearer admin-token") = inr current_user
    /\ (phone_of Demo.asha = Py.get current_user "phone_number"
        \/ (Py.get current_user "phone_number" ∈ SUPER_ADMINS
            /\ exists user_phone update,
                 PUT_admin_users "+911111111111"
                   {| update_name := "Asha K"; update_isActive := false |}
                 = PUT_admin_users user_phone update
                 /\ phone_of Demo.asha = VStr user_phone
                 /\ VStr user_phone ∉ SUPER_ADMINS)).
Proof.
  apply (writes_are_authorized Demo.verify_id_token Demo.str_HTTPException
           Demo.regex_search Demo.regex_valid (Some "Bearer admin-token") Demo.utcnow
           (PUT_admin_users "+911111111111"
              {| update_name := "Asha K"; update_isActive := false |})
           Demo.users 0%nat Demo.asha).
  - reflexivity.
  - compute_done.
Defined.

Lemma isActive_changes_by_admin_only_witness :
  exists current_user user_phone update,
    server.get_current_user Demo.verify_id_token Demo.str_HTTPException
      (Some "Bearer admin-token") = inr current_user
    /\ Py.get current_user "phone_number" ∈ SUPER_ADMINS
    /\ PUT_admin_users "+911111111111"
         {| update_name := "Asha"; update_isActive := false |}
       = PUT_admin_users user_phone update
    /\ phone_of Demo.asha = VStr user_phone
    /\ (VStr user_phone ∉ SUPER_ADMINS)
    /\ fields Demo.asha_deactivated !! "isActive"
       = Some (VBool (update_isActive update)).
Proof.
  apply (isActive_changes_by_admin_only Demo.verify_id_token
           Demo.str_HTTPException Demo.regex_search Demo.regex_valid
           (Some "Bearer admin-token") Demo.utcnow
           (PUT_admin_users "+911111111111"
              {| update_name := "Asha"; update_isActive := false |})
           Demo.users 0%nat Demo.asha Demo.asha_deactivated).
  - reflexivity.
  - vm_compute. reflexivity.
  - compute_done.
Defined.

Lemma errors_are_classified_witness :
  (server.get_current_user Demo.verify_id_token Demo.str_HTTPException
     (Some "Bearer admin-token") = inl internal_server_error
   /\ status_code internal_server_error = 401%Z)
  \/ (exists current_user,
        server.get_current_user Demo.verify_id_token Demo.str_HTTPException
          (Some "Bearer admin-token") = inr current_user
        /\ (internal_server_error = access_denied
            /\ GET_admin_users_search "+91" = POST_auth_verify_token
            \/ internal_server_error = forbidden
               /\ admin_request (GET_admin_users_search "+91") = true
            \/ internal_server_error = not_found
               /\ GET_admin_users_search "+91" <> POST_auth_verify_token
            \/ internal_server_error = invalid_operation
               /\ admin_request (GET_admin_users_search "+91") = true
            \/ internal_server_error = internal_server_error
               /\ Py.get current_user "phone_number" ∈ SUPER_ADMINS
               /\ exists query,
                    GET_admin_users_search "+91"
                    = GET_admin_users_search query
                    /\ Demo.regex_valid query = false)).
Proof.
  apply (errors_are_classified Demo.verify_id_token Demo.str_HTTPException
           Demo.regex_search Demo.regex_valid (Some "Bearer admin-token")
           Demo.utcnow (GET_admin_users_search "+91") Demo.users
           internal_server_error).
  vm_compute. reflexivity.
Defined.

Lemma admin_login_always_succeeds_witness :
  exists name isActive,
    snd (verify_token Demo.regex_search Demo.utcnow Demo.admin_claims
           Demo.users)
    = inr (login_response true (Py.get Demo.admin_claims "phone_number")
             name isActive true).
Proof.
  apply (admin_login_always_succeeds Demo.regex_search Demo.utcnow
           Demo.admin_claims Demo.users).
  compute_done.
Defined.

Lemma login_ensures_profile_witness :
  exists d,
    Demo.handle (Some "Bearer user-token") Demo.utcnow GET_users_profile
      (fst (Demo.handle (Some "Bearer user-token") Demo.utcnow
              POST_auth_verify_token [Demo.root]))
    = (fst (Demo.handle (Some "Bearer user-token") Demo.utcnow
              POST_auth_verify_token [Demo.root]),
       inr (profile_response (str_ObjectId (_id d)) (fields d)))
    /\ fields d !! "phoneNumber"
       = Some (Py.get Demo.user_claims "phone_number").
Proof.
  apply (login_ensures_profile Demo.verify_id_token Demo.str_HTTPException
           Demo.regex_search Demo.regex_valid (Some "Bearer user-token") Demo.user_claims
           Demo.utcnow Demo.utcnow [Demo.root]).
  vm_compute. reflexivity.
Defined.

Lemma update_profile_effect_witness :
  exists d',
    fst (update_profile Demo.regex_search Demo.utcnow
           {| profile_name := "Asha K" |} Demo.user_claims Demo.users)
    = [d'; Demo.root]
    /\ fields d' !! "name" = Some (VStr "Asha K").
Proof.
  destruct (update_profile_effect Demo.regex_search Demo.utcnow
              {| profile_name := "Asha K" |} Demo.user_claims Demo.users
              Demo.asha)
    as (before & after & d' & _ & _ & _ & Hname & _).
  - vm_compute. reflexivity.
  - eexists. split; [vm_compute; reflexivity|]. vm_compute. reflexivity.
Defined.

Lemma profile_update_read_back_witness :
  exists d',
    get_profile Demo.regex_search Demo.user_claims
      (fst (update_profile Demo.regex_search Demo.utcnow
              {| profile_name := "Asha K" |} Demo.user_claims Demo.users))
    = (fst (update_profile Demo.regex_search Demo.utcnow
              {| profile_name := "Asha K" |} Demo.user_claims Demo.users),
       inr (profile_response (str_ObjectId (_id d')) (fields d')))
    /\ fields d' !! "name" = Some (VStr "Asha K")
    /\ fields d' !! "updatedAt" = Some (VDate (Demo.utcnow 0%nat)).
Proof.
  apply (profile_update_read_back Demo.regex_search Demo.utcnow
           {| profile_name := "Asha K" |} Demo.user_claims Demo.users).
  vm_compute. reflexivity.
Defined.

Lemma admin_update_decides_next_login_witness :
  snd (verify_token Demo.regex_search Demo.utcnow Demo.user_claims
         (fst (update_user Demo.regex_search Demo.utcnow "+911111111111"
                 {| update_name := "Asha K"; update_isActive := false |}
                 Demo.admin_claims Demo.users)))
  = inl access_denied.
Proof.
  apply (admin_update_decides_next_login Demo.regex_search Demo.utcnow
           Demo.utcnow "+911111111111"
           {| update_name := "Asha K"; update_isActive := false |}
           Demo.admin_claims Demo.user_claims Demo.users).
  - vm_compute. reflexivity.
  - vm_compute. reflexivity.
Defined.

Lemma search_within_listing_witness :
  [fields Demo.asha] `sublist_of` [fields Demo.asha].
Proof.
  apply (search_within_listing Demo.regex_search Demo.regex_valid "^\+9111"
           Demo.admin_claims Demo.users).
  - vm_compute. reflexivity.
  - vm_compute. reflexivity.
Defined.

Lemma user_lists_for_admins_only_witness :
  exists current_user,
    server.get_current_user Demo.verify_id_token Demo.str_HTTPException
      (Some "Bearer admin-token") = inr current_user
    /\ Py.get current_user "phone_number" ∈ SUPER_ADMINS.
Proof.
  apply (user_lists_for_admins_only Demo.verify_id_token
           Demo.str_HTTPException Demo.regex_search Demo.regex_valid
           (Some "Bearer admin-token") Demo.utcnow GET_admin_users Demo.users
           [fields Demo.asha]).
  vm_compute. reflexivity.
Defined.

Lemma profile_is_the_callers_own_witness :
  exists current_user d,
    server.get_current_user Demo.verify_id_token Demo.str_HTTPException
      (Some "Bearer user-token") = inr current_user
    /\ d ∈ Demo.users
    /\ fields Demo.asha = fields d
    /\ "000000000000000000000001" = str_ObjectId (_id d)
    /\ fields Demo.asha !! "phoneNumber"
       = Some (Py.get current_user "phone_number").
Proof.
  apply (profile_is_the_callers_own Demo.verify_id_token
           Demo.str_HTTPException Demo.regex_search Demo.regex_valid
           (Some "Bearer user-token") Demo.utcnow GET_users_profile
           Demo.users).
  vm_compute. reflexivity.
Defined.

Lemma bearer_header_token_witness :
  server.get_current_user Demo.verify_id_token Demo.str_HTTPException
    (Some "Bearer user-token") = inr Demo.user_claims.
Proof.
  apply (bearer_header_token Demo.verify_id_token Demo.str_HTTPException
           "user-token").
  reflexivity.
Defined.
